(** * pyokta_aws.settings: the Settings object and its argparse plumbing

    A shallow embedding of [src/pyokta_aws/settings.py].  Python objects
    live in a heap of attribute dictionaries, printed text is collected in
    a list of lines, and exceptions are the left summand of a result; the
    three are threaded by one small state-and-exception monad.  *)

From Stdlib Require Import String Ascii ZArith DecimalString.
From stdpp Require Import base option list.

Open Scope string_scope.

(** ** Python values *)

Module Py.

(** The values that reach the settings code: [None], the two booleans of
    the [store_true] switches, the integer default of [--sts-duration] and
    the strings coming from the command line and the environment. *)
Inductive value : Type :=
| VNone
| VBool (b : bool)
| VInt (z : Z)
| VStr (s : string).

(** Truth value testing, as [not x] and [if x:] do it. *)
Definition truthy (v : value) : bool :=
  match v with
  | VNone => false
  | VBool b => b
  | VInt z => negb (z =? 0)%Z
  | VStr s => negb (s =? "")
  end.

(** [str(y)]. *)
Definition str (v : value) : string :=
  match v with
  | VNone => "None"
  | VBool true => "True"
  | VBool false => "False"
  | VInt z => NilZero.string_of_int (Z.to_int z)
  | VStr s => s
  end.

(** The ways a call can fail with [TypeError]. *)
Inductive type_error : Type :=
| PositionalNotAllowed (allowed received : nat)
| MultipleValues (param : string)
| TooManyPositional (most received : nat)
| NoDict.

Inductive exn : Type :=
| TypeError (why : type_error)
| KeyError (key : string)
| SystemExit (code : nat).

(** *** Dictionaries

    A [dict] keeps its items in insertion order, which is the order
    [items()] yields and the order the verbose dump is printed in, so it is
    an association list.  Its keys are pairwise distinct; the operations
    below keep them so. *)
Definition dict : Type := list (string * value).

Fixpoint dict_get (k : string) (d : dict) : option value :=
  match d with
  | [] => None
  | (k', v) :: d' => if k' =? k then Some v else dict_get k d'
  end.

(** [d[k] = v]: an existing key keeps its place, a new one goes last. *)
Fixpoint dict_set (k : string) (v : value) (d : dict) : dict :=
  match d with
  | [] => [(k, v)]
  | (k', v') :: d' =>
      if k' =? k then (k', v) :: d' else (k', v') :: dict_set k v d'
  end.

(** The dictionary left by [d.pop(k)] or [del d[k]]. *)
Fixpoint dict_del (k : string) (d : dict) : dict :=
  match d with
  | [] => []
  | (k', v) :: d' => if k' =? k then dict_del k d' else (k', v) :: dict_del k d'
  end.

Definition keys (d : dict) : list string := map fst d.

Definition has_key (k : string) (d : dict) : bool :=
  match dict_get k d with Some _ => true | None => false end.

(** *** Strings *)

Definition newline : string := String (ascii_of_nat 10) EmptyString.

Fixpoint replicate_char (n : nat) (c : ascii) : string :=
  match n with
  | O => EmptyString
  | S n' => String c (replicate_char n' c)
  end.

(** The format specification [{:.<19s}] in its general form: left-align
    in [width] columns, filling with [fill]; a longer string is kept
    whole. *)
Definition ljust (s : string) (width : nat) (fill : ascii) : string :=
  s ++ replicate_char (width - String.length s) fill.

(** [x is not lit] for an attribute name [x] that was stored through
    [setattr] and a string literal [lit].  [setattr] interns the attribute
    name, and an identifier-like literal of a code object is interned as
    well: on such strings two objects are the same object exactly when
    their contents are equal.  This is the case of every namespace that
    [parse_args] builds; a dictionary given a key that is equal to the
    literal but is another object is outside this model, and what is
    proved about the dump is stated for parsed namespaces. *)
Definition is_not (x lit : string) : bool := negb (x =? lit).

(** *** The world: objects and standard output *)

Definition loc : Type := nat.

(** An object is its attribute dictionary ([__dict__]); [heap] maps the
    address of an object to it.  [stdout] has one entry per [print]. *)
Record world : Type := World {
  heap : list dict;
  stdout : list string
}.

Definition M (A : Type) : Type := world -> world * (exn + A).

Definition ret {A} (a : A) : M A := fun w => (w, inr a).

Definition raise {A} (e : exn) : M A := fun w => (w, inl e).

(** What a statement has written before it raises stays written. *)
Definition bind {A B} (m : M A) (f : A -> M B) : M B :=
  fun w =>
    match m w with
    | (w', inr a) => f a w'
    | (w', inl e) => (w', inl e)
    end.

Declare Scope py_scope.
Delimit Scope py_scope with py.
Notation "x <- m ;; k" := (bind m (fun x => k))
  (at level 100, m at next level, right associativity) : py_scope.
Notation "m ;;; k" := (bind m (fun _ => k))
  (at level 100, right associativity) : py_scope.
Open Scope py_scope.

Definition print (line : string) : M unit :=
  fun w => (World (heap w) (stdout w ++ [line]), inr tt).

(** A new object with no attribute yet. *)
Definition alloc : M loc :=
  fun w => (World (heap w ++ [[]]) (stdout w), inr (length (heap w))).

(** [vars(obj)]: the object's own dictionary, not a copy of it.  The
    dictionary of the object at [obj] is addressed by [obj] as well. *)
Definition vars (obj : loc) : M loc :=
  fun w =>
    match heap w !! obj with
    | Some _ => (w, inr obj)
    | None => (w, inl (TypeError NoDict))
    end.

Definition read (d : loc) : M dict :=
  fun w =>
    match heap w !! d with
    | Some items => (w, inr items)
    | None => (w, inl (TypeError NoDict))
    end.

Definition write (d : loc) (items : dict) : M unit :=
  fun w => (World (<[d := items]> (heap w)) (stdout w), inr tt).

(** [d[k]] *)
Definition getitem (d : loc) (k : string) : M value :=
  items <- read d ;;
  match dict_get k items with
  | Some v => ret v
  | None => raise (KeyError k)
  end.

(** [d[k] = v] *)
Definition setitem (d : loc) (k : string) (v : value) : M unit :=
  items <- read d ;;
  write d (dict_set k v items).

(** [d.pop(k)] *)
Definition pop (d : loc) (k : string) : M value :=
  items <- read d ;;
  match dict_get k items with
  | Some v => write d (dict_del k items) ;;; ret v
  | None => raise (KeyError k)
  end.

(** [obj.name = v] *)
Definition setattr (obj : loc) (name : string) (v : value) : M unit :=
  setitem obj name v.

(** [for x in xs: body(x)] *)
Fixpoint for_each {A} (xs : list A) (body : A -> M unit) : M unit :=
  match xs with
  | [] => ret tt
  | x :: xs' => body x ;;; for_each xs' body
  end.

End Py.

Import Py.

(** ** Calling a function: how arguments meet parameters *)

Module Call.

(** The parameters of a [def f(receiver, p1=d1, ..., pn=dn, **extra)] are
    filled as the interpreter does it: positional arguments go to the
    parameters in order, then every keyword goes to the parameter of its
    name, or to [**extra] when there is none; a keyword naming a parameter
    that a positional argument has taken is an error, and so is a
    positional argument with no parameter left.  The receiver is always
    passed positionally. *)
Fixpoint bind_keywords (receiver : string) (params : list string)
    (positional : dict) (kwargs : dict) (named extra : dict)
  : exn + (dict * dict) :=
  match kwargs with
  | [] => inr (named, extra)
  | (k, v) :: rest =>
      if (k =? receiver) || has_key k positional then
        inl (TypeError (MultipleValues k))
      else if existsb (String.eqb k) params then
        bind_keywords receiver params positional rest (dict_set k v named) extra
      else
        bind_keywords receiver params positional rest named (dict_set k v extra)
  end.

Definition bind_arguments (receiver : string) (params : list string)
    (args : list value) (kwargs : dict) : exn + (dict * dict) :=
  let positional := combine params args in
  match bind_keywords receiver params positional kwargs positional [] with
  | inl e => inl e
  | inr (named, extra) =>
      if (length params <? length args)%nat then
        inl (TypeError (TooManyPositional (S (length params)) (S (length args))))
      else inr (named, extra)
  end.

(** The value of parameter [name]: the argument bound to it, else its
    default. *)
Definition argument (named : dict) (name : string) (default : value) : value :=
  match dict_get name named with
  | Some v => v
  | None => default
  end.

End Call.

(** ** pyokta_aws.utils *)

Module Utils.

(** Modelled from the spec: the decorator [utils.no_positional], whose
    module is not part of the sources.  The spec words it as a check made
    by the constructor before it assigns any field: a positional argument
    beyond the implicit receiver is a usage error.  [self] is the receiver
    and [args] the positional arguments after it. *)
Definition no_positional (allow_self : bool) {A : Type}
    (function : loc -> list value -> dict -> M A)
    (self : loc) (args : list value) (kwargs : dict) : M A :=
  let allowed_positional_args := if allow_self then 1 else 0 in
  let received_positional_args := S (length args) in
  if (allowed_positional_args <? received_positional_args)%nat then
    raise (TypeError (PositionalNotAllowed allowed_positional_args
                                           received_positional_args))
  else function self args kwargs.

(** Modelled from the spec: the parser action [utils.EnvironmentDefault],
    whose module is not part of the sources.  The spec gives its
    resolution order: the value given on the command line if there is one,
    else the value of the bound environment variable if it is set, else the
    declared default ([None] when none is declared).  [environ] is the
    process environment, [cli] the value the command line supplied. *)
Definition EnvironmentDefault (environ : string -> option string)
    (env : string) (default : value) (cli : option value) : value :=
  match cli with
  | Some v => v
  | None =>
      match environ env with
      | Some e => VStr e
      | None => default
      end
  end.

End Utils.

(** ** The argument parser

    The part of the standard [argparse] module the settings rely on:
    options with exact flags, each followed by its value as a separate
    word, and [store_true] switches. *)

Module Argparse.

Inductive action_class : Type :=
| EnvironmentDefault (env : string)
| store_true.

Record action : Type := Action {
  option_strings : list string;
  dest : string;
  action_of : action_class;
  default : value
}.

Definition parser : Type := list action.

Definition is_long (flag : string) : bool := String.prefix "--" flag.

Fixpoint lstrip_dashes (s : string) : string :=
  match s with
  | String "-"%char s' => lstrip_dashes s'
  | _ => s
  end.

Fixpoint dashes_to_underscores (s : string) : string :=
  match s with
  | EmptyString => EmptyString
  | String c s' =>
      String (if Ascii.eqb c "-" then "_"%char else c) (dashes_to_underscores s')
  end.

(** The attribute an option is stored under: its first long flag (else its
    first flag) without the leading dashes, inner dashes as underscores. *)
Definition dest_of (flags : list string) : string :=
  match (List.filter is_long flags ++ flags)%list with
  | flag :: _ => dashes_to_underscores (lstrip_dashes flag)
  | [] => ""
  end.

Definition add_argument (p : parser) (flags : list string)
    (cls : action_class) (default : value) : parser :=
  (p ++ [Action flags (dest_of flags) cls default])%list.

Definition find_action (p : parser) (flag : string) : option action :=
  List.find (fun a => existsb (String.eqb flag) (option_strings a)) p.

(** What the command line supplies: an [EnvironmentDefault] option takes
    the word after its flag, a [store_true] switch stores [True]; a later
    occurrence replaces an earlier one.  An unknown flag or a missing value
    ends the process with status 2. *)
Fixpoint scan (p : parser) (argv : list string) (supplied : dict) : exn + dict :=
  match argv with
  | [] => inr supplied
  | flag :: rest =>
      match find_action p flag with
      | None => inl (SystemExit 2)
      | Some a =>
          match action_of a, rest with
          | store_true, _ => scan p rest (dict_set (dest a) (VBool true) supplied)
          | EnvironmentDefault _, word :: rest' =>
              scan p rest' (dict_set (dest a) (VStr word) supplied)
          | EnvironmentDefault _, [] => inl (SystemExit 2)
          end
      end
  end.

(** The effective value of one option. *)
Definition resolve (environ : string -> option string) (a : action)
    (cli : option value) : value :=
  match action_of a with
  | EnvironmentDefault env => Utils.EnvironmentDefault environ env (default a) cli
  | store_true =>
      match cli with
      | Some v => v
      | None => default a
      end
  end.

(** The attributes of the parsed namespace, one per registered option, in
    the order of registration. *)
Definition namespace (environ : string -> option string) (p : parser)
    (supplied : dict) : dict :=
  fold_left
    (fun ns a => dict_set (dest a) (resolve environ a (dict_get (dest a) supplied)) ns)
    p [].

(** [parser.parse_args(argv)]: a new namespace object. *)
Definition parse_args (environ : string -> option string) (p : parser)
    (argv : list string) : M loc :=
  match scan p argv [] with
  | inl e => raise e
  | inr supplied =>
      args <- alloc ;;
      write args (namespace environ p supplied) ;;;
      ret args
  end.

End Argparse.

(** ** class Settings *)

Module Settings.

Import Argparse.

(** The parameters of [__init__] after [self], in order. *)
Definition parameters : list string :=
  ["profile"; "username"; "password"; "okta_org"; "okta_aws_app_url";
   "sts_duration"; "config_file"; "verbose"; "interactive"].

(** [Settings.__init__], under its decorator
    [@utils.no_positional(allow_self=True)]. *)
Definition __init__ : loc -> list value -> dict -> M unit :=
  Utils.no_positional true
    (fun self args kwargs =>
       match Call.bind_arguments "self" parameters args kwargs with
       | inl e => raise e
       | inr (named, ignored_kwargs) =>
           let profile := Call.argument named "profile" VNone in
           let username := Call.argument named "username" VNone in
           let password := Call.argument named "password" VNone in
           let okta_org := Call.argument named "okta_org" VNone in
           let okta_aws_app_url := Call.argument named "okta_aws_app_url" VNone in
           let sts_duration := Call.argument named "sts_duration" VNone in
           let config_file :=
             Call.argument named "config_file" (VStr "~/.pyokta_aws/config") in
           let verbose := Call.argument named "verbose" (VBool false) in
           let interactive := Call.argument named "interactive" (VBool true) in
           setattr self "profile" profile ;;;
           setattr self "username" username ;;;
           setattr self "password" password ;;;
           setattr self "okta_org" okta_org ;;;
           setattr self "okta_aws_app_url" okta_aws_app_url ;;;
           setattr self "sts_duration" sts_duration ;;;
           setattr self "config_file" config_file ;;;
           setattr self "verbose" verbose
       end).

(** Calling the class, [Settings(...)] with positional arguments [args]
    and keywords [kwargs]: a new object, initialized. *)
Definition new (args : list value) (kwargs : dict) : M loc :=
  self <- alloc ;;
  __init__ self args kwargs ;;;
  ret self.

(** [Settings.register_argparse_arguments(parser)].  The help texts have
    no part in parsing and are left out; so is [required=False], every
    option here being optional. *)
Definition register_argparse_arguments (parser : Argparse.parser)
  : Argparse.parser :=
  let parser := add_argument parser ["-p"; "--profile"]
                  (EnvironmentDefault "OKTA_AWS_PROFILE") VNone in
  let parser := add_argument parser ["-o"; "--okta-org"]
                  (EnvironmentDefault "OKTA_ORG") VNone in
  let parser := add_argument parser ["-a"; "--okta-aws-app-url"]
                  (EnvironmentDefault "OKTA_AWS_APP_URL") VNone in
  let parser := add_argument parser ["-r"; "--aws-role-to-assume"]
                  (EnvironmentDefault "OKTA_AWS_ROLE_TO_ASSUME") VNone in
  let parser := add_argument parser ["-u"; "--username"]
                  (EnvironmentDefault "OKTA_USERNAME") VNone in
  let parser := add_argument parser ["-pw"; "--password"]
                  (EnvironmentDefault "OKTA_PASSWORD") VNone in
  let parser := add_argument parser ["-s"; "--sts-duration"]
                  (EnvironmentDefault "OKTA_STS_DURATION") (VInt 3600) in
  let parser := add_argument parser ["-c"; "--config-file"]
                  (EnvironmentDefault "PYOKTA_AWS_CONFIG")
                  (VStr "~/.pyokta_aws/config") in
  let parser := add_argument parser ["--non-interactive"] store_true (VBool false) in
  let parser := add_argument parser ["--verbose"] store_true (VBool false) in
  parser.

(** One line of the verbose dump:
    ['{:.<19s}: {}'.format(x, str(y) if x is not 'password' else '<redacted>')]. *)
Definition dump_line (x : string) (y : value) : string :=
  ljust x 19 "." ++ ": " ++ (if is_not x "password" then str y else "<redacted>").

(** [Settings.from_argparse(args)], a class method: [cls] is the class it
    is called on, [args] the parsed namespace object.  The keyword
    expansion of [settings] in the call of [cls] passes the items the
    dictionary holds at that moment. *)
Definition from_argparse {A : Type} (cls : list value -> dict -> M A)
    (args : loc) : M A :=
  settings <- vars args ;;
  non_interactive <- pop settings "non_interactive" ;;
  setitem settings "interactive" (VBool (negb (truthy non_interactive))) ;;;
  verbose <- getitem settings "verbose" ;;
  (if truthy verbose then
     print (newline ++ "Using the following settings...") ;;;
     items <- read settings ;;
     for_each items (fun '(x, y) => print (dump_line x y))
   else ret tt) ;;;
  kwargs <- read settings ;;
  cls [] kwargs.

(** One run of the command line, as far as this module goes: register the
    options on an empty parser, parse [argv] under the environment
    [environ], and make the settings. *)
Definition invoke (environ : string -> option string) (argv : list string)
  : M loc :=
  args <- parse_args environ (register_argparse_arguments []) argv ;;
  from_argparse new args.

End Settings.

(** ** Reading a result *)

Definition initial : world := World [] [].

(** The attribute [name] in the own dictionary of the object [obj] in
    world [w]; for a name the class does not define, [None] is where
    [getattr(obj, name)] raises [AttributeError]. *)
Definition getattr (w : world) (obj : loc) (name : string) : option value :=
  heap w !! obj ≫= dict_get name.

(** ** Closed forms

    What the statements of [from_argparse] and [__init__] compute, written
    without the monad; the lemmas of the next part connect them to the
    code. *)

(** The settings mapping after
    [settings['interactive'] = not settings.pop('non_interactive')]. *)
Definition materialized (ns : dict) (non_interactive : value) : dict :=
  dict_set "interactive" (VBool (negb (truthy non_interactive)))
           (dict_del "non_interactive" ns).

(** The lines of the verbose dump of a mapping. *)
Definition dump (settings : dict) : list string :=
  (newline ++ "Using the following settings...")
    :: map (fun '(x, y) => Settings.dump_line x y) settings.

(** The attributes [__init__] leaves on the instance, from the bound
    parameters. *)
Definition instance_attributes (named : dict) : dict :=
  [("profile", Call.argument named "profile" VNone);
   ("username", Call.argument named "username" VNone);
   ("password", Call.argument named "password" VNone);
   ("okta_org", Call.argument named "okta_org" VNone);
   ("okta_aws_app_url", Call.argument named "okta_aws_app_url" VNone);
   ("sts_duration", Call.argument named "sts_duration" VNone);
   ("config_file", Call.argument named "config_file" (VStr "~/.pyokta_aws/config"));
   ("verbose", Call.argument named "verbose" (VBool false))].

(** Two dictionaries with the same keys in the same order whose values
    agree everywhere but under [k]. *)
Definition differ_only_at (k : string) (d1 d2 : dict) : Prop :=
  Forall2 (fun i1 i2 => i1.1 = i2.1 /\ (i1.1 <> k -> i1.2 = i2.2)) d1 d2.

(** An option of the parser that falls back on an environment variable. *)
Definition env_bound (a : Argparse.action) (env : string) : Prop :=
  Argparse.action_of a = Argparse.EnvironmentDefault env.

(** The parameters [__init__] stores on the instance, each with its
    default, in the order of the assignments. *)
Definition stored_parameters : list (string * value) :=
  [("profile", VNone); ("username", VNone); ("password", VNone);
   ("okta_org", VNone); ("okta_aws_app_url", VNone); ("sts_duration", VNone);
   ("config_file", VStr "~/.pyokta_aws/config"); ("verbose", VBool false)].

(** Two environments that agree on every variable but [name]. *)
Definition same_environ_except (name : string)
    (environ1 environ2 : string -> option string) : Prop :=
  forall n, n <> name -> environ1 n = environ2 n.

(** The text a dump line shows for the value [y] stored under [x]. *)
Definition shown (x : string) (y : value) : string :=
  if is_not x "password" then str y else "<redacted>".

(** ** Dictionaries *)

Section DictFacts.

Implicit Types (k : string) (v : value) (d : dict).

Lemma dict_get_set_eq k v d : dict_get k (dict_set k v d) = Some v.
Proof.
  induction d as [|[k' v'] d IH]; simpl.
  - now rewrite String.eqb_refl.
  - destruct (String.eqb_spec k' k) as [->|Hne]; simpl.
    + now rewrite String.eqb_refl.
    + destruct (String.eqb_spec k' k); [contradiction | exact IH].
Qed.

Lemma dict_get_set_ne k k' v d :
  k <> k' -> dict_get k' (dict_set k v d) = dict_get k' d.
Proof.
  intros Hne. induction d as [|[k0 v0] d IH]; simpl.
  - destruct (String.eqb_spec k k'); [contradiction | reflexivity].
  - destruct (String.eqb_spec k0 k) as [->|Hk]; simpl.
    + destruct (String.eqb_spec k k'); [contradiction | reflexivity].
    + now rewrite IH.
Qed.

Lemma dict_get_del_eq k d : dict_get k (dict_del k d) = None.
Proof.
  induction d as [|[k' v'] d IH]; simpl; [reflexivity|].
  destruct (String.eqb_spec k' k) as [->|Hne]; simpl; [exact IH|].
  destruct (String.eqb_spec k' k); [contradiction | exact IH].
Qed.

Lemma dict_get_del_ne k k' d :
  k <> k' -> dict_get k' (dict_del k d) = dict_get k' d.
Proof.
  intros Hne. induction d as [|[k0 v0] d IH]; simpl; [reflexivity|].
  destruct (String.eqb_spec k0 k) as [->|Hk]; simpl.
  - destruct (String.eqb_spec k k'); [contradiction | exact IH].
  - now rewrite IH.
Qed.

Lemma keys_dict_del k k' d : In k' (keys (dict_del k d)) -> In k' (keys d).
Proof.
  induction d as [|[k0 v0] d IH]; simpl; [tauto|].
  destruct (k0 =? k); simpl; tauto.
Qed.

Lemma keys_dict_set k k' v d :
  In k' (keys (dict_set k v d)) -> k' = k \/ In k' (keys d).
Proof.
  induction d as [|[k0 v0] d IH]; simpl.
  - intros [<-|[]]. now left.
  - destruct (k0 =? k); simpl; tauto.
Qed.

Lemma dict_get_None_keys k d : ~ In k (keys d) -> dict_get k d = None.
Proof.
  induction d as [|[k0 v0] d IH]; simpl; [reflexivity|].
  intros Hn. destruct (String.eqb_spec k0 k) as [->|Hk]; [tauto|].
  apply IH. tauto.
Qed.

Lemma materialized_interactive d v :
  dict_get "interactive" (materialized d v) = Some (VBool (negb (truthy v))).
Proof. apply dict_get_set_eq. Qed.

Lemma materialized_non_interactive d v :
  dict_get "non_interactive" (materialized d v) = None.
Proof.
  unfold materialized.
  rewrite dict_get_set_ne by discriminate. apply dict_get_del_eq.
Qed.

Lemma materialized_other k d v :
  k <> "interactive" -> k <> "non_interactive" ->
  dict_get k (materialized d v) = dict_get k d.
Proof.
  intros H1 H2. unfold materialized.
  rewrite dict_get_set_ne by congruence. apply dict_get_del_ne. congruence.
Qed.

(** *** Dictionaries that differ under one key *)

Lemma differ_only_at_refl k d : differ_only_at k d d.
Proof. induction d; constructor; auto. Qed.

Lemma differ_only_at_set k v1 v2 d :
  differ_only_at k (dict_set k v1 d) (dict_set k v2 d).
Proof.
  induction d as [|[k0 v0] d IH]; simpl.
  - repeat constructor. simpl. congruence.
  - destruct (String.eqb_spec k0 k) as [->|Hk].
    + constructor; [simpl; split; congruence | apply differ_only_at_refl].
    + constructor; [simpl; auto | exact IH].
Qed.

Lemma differ_only_at_get k k' d1 d2 :
  differ_only_at k d1 d2 -> k' <> k -> dict_get k' d1 = dict_get k' d2.
Proof.
  intros H Hne. induction H as [|[k1 v1] [k2 v2] d1 d2 [Hk Hv] _ IH]; simpl in *.
  - reflexivity.
  - subst k2. destruct (String.eqb_spec k1 k') as [->|]; [|exact IH].
    now rewrite Hv.
Qed.

Lemma differ_only_at_del k k' d1 d2 :
  differ_only_at k d1 d2 -> differ_only_at k (dict_del k' d1) (dict_del k' d2).
Proof.
  induction 1 as [|[k1 v1] [k2 v2] d1 d2 [Hk Hv] _ IH]; simpl in *.
  - constructor.
  - subst k2. destruct (k1 =? k'); [exact IH|].
    constructor; [simpl; auto | exact IH].
Qed.

Lemma differ_only_at_set_other k k' v d1 d2 :
  differ_only_at k d1 d2 ->
  differ_only_at k (dict_set k' v d1) (dict_set k' v d2).
Proof.
  induction 1 as [|[k1 v1] [k2 v2] d1 d2 [Hk Hv] Hrest IH]; simpl in *.
  - repeat constructor; auto.
  - subst k2. destruct (k1 =? k').
    + constructor; [simpl; auto | exact Hrest].
    + constructor; [simpl; auto | exact IH].
Qed.

Lemma differ_only_at_materialized k d1 d2 v :
  differ_only_at k d1 d2 ->
  differ_only_at k (materialized d1 v) (materialized d2 v).
Proof.
  intros H. unfold materialized.
  now apply differ_only_at_set_other, differ_only_at_del.
Qed.

End DictFacts.

(** ** Running the code *)

Section Primitives.

Context {A B : Type}.

Lemma bind_ok (m : M A) (f : A -> M B) (w w' : world) (a : A) :
  m w = (w', inr a) -> bind m f w = f a w'.
Proof. intros H. unfold bind. now rewrite H. Qed.

Lemma bind_raise (m : M A) (f : A -> M B) (w w' : world) (e : exn) :
  m w = (w', inl e) -> bind m f w = (w', inl e).
Proof. intros H. unfold bind. now rewrite H. Qed.

End Primitives.

Section Objects.

Variables (w : world) (obj : loc) (d : dict).
Hypothesis Hobj : heap w !! obj = Some d.

Lemma vars_run : vars obj w = (w, inr obj).
Proof. unfold vars. now rewrite Hobj. Qed.

Lemma read_run : read obj w = (w, inr d).
Proof. unfold read. now rewrite Hobj. Qed.

Lemma getitem_run k v :
  dict_get k d = Some v -> getitem obj k w = (w, inr v).
Proof.
  intros H. unfold getitem. rewrite (bind_ok _ _ _ _ _ read_run). now rewrite H.
Qed.

Lemma getitem_missing k :
  dict_get k d = None -> getitem obj k w = (w, inl (KeyError k)).
Proof.
  intros H. unfold getitem. rewrite (bind_ok _ _ _ _ _ read_run). now rewrite H.
Qed.

Lemma setitem_run k v :
  setitem obj k v w
  = (World (<[obj := dict_set k v d]> (heap w)) (stdout w), inr tt).
Proof. unfold setitem. now rewrite (bind_ok _ _ _ _ _ read_run). Qed.

Lemma pop_run k v :
  dict_get k d = Some v ->
  pop obj k w = (World (<[obj := dict_del k d]> (heap w)) (stdout w), inr v).
Proof.
  intros H. unfold pop. rewrite (bind_ok _ _ _ _ _ read_run). now rewrite H.
Qed.

Lemma pop_missing k :
  dict_get k d = None -> pop obj k w = (w, inl (KeyError k)).
Proof.
  intros H. unfold pop. rewrite (bind_ok _ _ _ _ _ read_run). now rewrite H.
Qed.

(** A stored object is found again. *)
Lemma stored (items : dict) (out : list string) :
  heap (World (<[obj := items]> (heap w)) out) !! obj = Some items.
Proof.
  simpl. apply list_lookup_insert_eq. eapply lookup_lt_Some, Hobj.
Qed.

End Objects.

Lemma for_each_print_items (items : dict) (w : world) :
  for_each items (fun '(x, y) => print (Settings.dump_line x y)) w
  = (World (heap w) (stdout w ++ map (fun '(x, y) => Settings.dump_line x y) items),
     inr tt).
Proof.
  revert w. induction items as [|[x y] items IH]; intros [h out]; simpl.
  - now rewrite app_nil_r.
  - unfold bind, print at 1. simpl. rewrite IH. simpl.
    now rewrite <- app_assoc.
Qed.

Section FromArgparse.

Context {A : Type} (cls : list value -> dict -> M A).
Variables (w : world) (args : loc).

(** The namespace is not an object: [vars] fails. *)
Lemma from_argparse_no_object :
  heap w !! args = None ->
  Settings.from_argparse cls args w = (w, inl (TypeError NoDict)).
Proof.
  intros H. unfold Settings.from_argparse.
  apply bind_raise. unfold vars. now rewrite H.
Qed.

Variable ns : dict.
Hypothesis Hargs : heap w !! args = Some ns.

(** The namespace has no [non_interactive]: [pop] fails and nothing is
    changed. *)
Lemma from_argparse_no_flag :
  dict_get "non_interactive" ns = None ->
  Settings.from_argparse cls args w = (w, inl (KeyError "non_interactive")).
Proof.
  intros Hni. unfold Settings.from_argparse.
  rewrite (bind_ok _ _ _ _ _ (vars_run _ _ _ Hargs)).
  apply bind_raise. now apply pop_missing with ns.
Qed.

Variable ni : value.
Hypothesis Hni : dict_get "non_interactive" ns = Some ni.

(** The world once line 159 has run. *)
Lemma from_argparse_prefix (k : value -> M A) :
  (non_interactive <- pop args "non_interactive" ;;
   setitem args "interactive" (VBool (negb (truthy non_interactive))) ;;;
   verbose <- getitem args "verbose" ;; k verbose) w
  = (verbose <- getitem args "verbose" ;; k verbose)
      (World (<[args := materialized ns ni]> (heap w)) (stdout w)).
Proof.
  rewrite (bind_ok _ _ _ _ _ (pop_run _ _ _ Hargs _ _ Hni)).
  erewrite bind_ok; [|apply (setitem_run _ _ _ (stored _ _ _ Hargs _ _))].
  simpl. now rewrite list_insert_insert_eq.
Qed.

(** The namespace has no [verbose]: the lookup fails after the mapping
    has been changed. *)
Lemma from_argparse_no_verbose :
  dict_get "verbose" ns = None ->
  Settings.from_argparse cls args w
  = (World (<[args := materialized ns ni]> (heap w)) (stdout w),
     inl (KeyError "verbose")).
Proof.
  intros Hvb. unfold Settings.from_argparse.
  rewrite (bind_ok _ _ _ _ _ (vars_run _ _ _ Hargs)).
  rewrite from_argparse_prefix.
  apply bind_raise. apply (getitem_missing _ _ _ (stored _ _ _ Hargs _ _)).
  now rewrite materialized_other.
Qed.

(** The regular case: the mapping is changed in place, dumped when
    [verbose] is true, and handed to [cls]. *)
Lemma from_argparse_run (vb : value) :
  dict_get "verbose" ns = Some vb ->
  Settings.from_argparse cls args w
  = cls [] (materialized ns ni)
        (World (<[args := materialized ns ni]> (heap w))
               (stdout w ++ if truthy vb then dump (materialized ns ni) else [])).
Proof.
  intros Hvb. unfold Settings.from_argparse.
  rewrite (bind_ok _ _ _ _ _ (vars_run _ _ _ Hargs)).
  rewrite from_argparse_prefix.
  erewrite bind_ok;
    [|apply (getitem_run _ _ _ (stored _ _ _ Hargs _ _));
      rewrite materialized_other by discriminate; exact Hvb].
  destruct (truthy vb).
  - erewrite bind_ok; cycle 1.
    { erewrite bind_ok; [|reflexivity].
      erewrite bind_ok; [|apply (read_run _ _ _ (stored _ _ _ Hargs _ _))].
      apply for_each_print_items. }
    simpl. erewrite bind_ok; [|apply (read_run _ _ _ (stored _ _ _ Hargs _ _))].
    unfold dump. now rewrite <- app_assoc.
  - erewrite bind_ok; [|reflexivity].
    erewrite bind_ok; [|apply (read_run _ _ _ (stored _ _ _ Hargs _ _))].
    now rewrite app_nil_r.
Qed.

End FromArgparse.

Section Construction.

Variable w : world.

Lemma setattr_last (h : list dict) (d : dict) (out : list string)
    (name : string) (v : value) :
  setattr (length h) name v (World (h ++ [d]) out)
  = (World (h ++ [dict_set name v d]) out, inr tt).
Proof.
  unfold setattr. erewrite setitem_run; cycle 1.
  { simpl. now apply list_lookup_middle. }
  simpl. rewrite insert_app_r_alt by lia.
  now rewrite Nat.sub_diag.
Qed.

(** A positional argument after the receiver stops the call at the
    decorator: the new object is left without attributes. *)
Lemma new_positional (args : list value) (kwargs : dict) :
  args <> [] ->
  Settings.new args kwargs w
  = (World (heap w ++ [[]]) (stdout w),
     inl (TypeError (PositionalNotAllowed 1 (S (length args))))).
Proof.
  intros Hargs. destruct args as [|a args]; [contradiction|].
  reflexivity.
Qed.

(** With keywords only the call reaches the body, which stores eight of
    the nine parameters. *)
Lemma new_keywords (kwargs : dict) :
  Settings.new [] kwargs w
  = match Call.bind_arguments "self" Settings.parameters [] kwargs with
    | inl e => (World (heap w ++ [[]]) (stdout w), inl e)
    | inr (named, _) =>
        (World (heap w ++ [instance_attributes named]) (stdout w),
         inr (length (heap w)))
    end.
Proof.
  unfold Settings.new. rewrite (bind_ok _ _ _ _ _ eq_refl).
  unfold Settings.__init__, Utils.no_positional. cbn [length Nat.ltb Nat.leb].
  destruct (Call.bind_arguments "self" Settings.parameters [] kwargs)
    as [e|[named ignored_kwargs]].
  - reflexivity.
  - erewrite bind_ok; [reflexivity|].
    repeat (erewrite bind_ok; [|apply setattr_last]).
    apply setattr_last.
Qed.

End Construction.

Section Binding.

Variables (receiver : string) (params : list string) (positional : dict).

(** Keywords that are neither the receiver's name nor bound positionally
    are all accepted. *)
Lemma bind_keywords_accepts (kwargs : dict) :
  ~ In receiver (keys kwargs) ->
  (forall k, In k (keys kwargs) -> dict_get k positional = None) ->
  forall named extra,
    exists named' extra',
      Call.bind_keywords receiver params positional kwargs named extra
      = inr (named', extra').
Proof.
  induction kwargs as [|[k v] kwargs IH]; simpl; intros Hself Hpos named extra.
  - eauto.
  - destruct (String.eqb_spec k receiver) as [->|_]; [tauto|].
    unfold has_key. rewrite (Hpos k) by auto. simpl.
    destruct (existsb (String.eqb k) params); apply IH; auto.
Qed.

(** A keyword that is no parameter has no influence on the bound
    parameters, nor on whether the binding succeeds. *)
Lemma bind_keywords_differ (k : string) (kw1 kw2 : dict) :
  existsb (String.eqb k) params = false ->
  differ_only_at k kw1 kw2 ->
  forall named extra1 extra2,
    match Call.bind_keywords receiver params positional kw1 named extra1,
          Call.bind_keywords receiver params positional kw2 named extra2 with
    | inl e1, inl e2 => e1 = e2
    | inr (named1, _), inr (named2, _) => named1 = named2
    | _, _ => False
    end.
Proof.
  intros Hk. induction 1 as [|[k1 v1] [k2 v2] kw1 kw2 [Hkey Hval] _ IH];
    simpl in *; intros named extra1 extra2.
  - reflexivity.
  - subst k2.
    destruct ((k1 =? receiver) || has_key k1 positional); [reflexivity|].
    destruct (existsb (String.eqb k1) params) eqn:Hparam.
    + rewrite Hval; [apply IH|]. intros ->. congruence.
    + apply IH.
Qed.

End Binding.

Section Output.

Lemma new_stdout (w : world) (kwargs : dict) :
  stdout (Settings.new [] kwargs w).1 = stdout w.
Proof.
  rewrite new_keywords.
  now destruct (Call.bind_arguments _ _ _ _) as [e|[named extra]].
Qed.

(** Making the instance leaves the objects that exist alone. *)
Lemma new_frame (w : world) (kwargs : dict) (obj : loc) (d : dict) :
  heap w !! obj = Some d ->
  heap (Settings.new [] kwargs w).1 !! obj = Some d.
Proof.
  intros H. rewrite new_keywords.
  destruct (Call.bind_arguments _ _ _ _) as [e|[named extra]]; simpl;
    now apply lookup_app_l_Some.
Qed.

Lemma dump_line_password (y : value) :
  Settings.dump_line "password" y = "password...........: <redacted>".
Proof. reflexivity. Qed.

Lemma dump_differ (d1 d2 : dict) :
  differ_only_at "password" d1 d2 -> dump d1 = dump d2.
Proof.
  intros H. unfold dump. f_equal.
  induction H as [|[k1 v1] [k2 v2] d1 d2 [Hk Hv] _ IH]; simpl in *;
    [reflexivity|].
  subst k2. f_equal; [|exact IH].
  unfold Settings.dump_line, is_not.
  destruct (String.eqb_spec k1 "password") as [->|Hne]; simpl; [reflexivity|].
  now rewrite Hv.
Qed.

Lemma dump_has_line (k : string) (v : value) (d : dict) :
  dict_get k d = Some v -> In (Settings.dump_line k v) (dump d).
Proof.
  intros H. unfold dump. right.
  induction d as [|[k' v'] d IH]; simpl in *; [discriminate|].
  destruct (String.eqb_spec k' k) as [->|Hne].
  - left. congruence.
  - right. auto.
Qed.

End Output.

Lemma namespace_registered (environ : string -> option string) (supplied : dict) :
  Argparse.namespace environ (Settings.register_argparse_arguments []) supplied
  = [("profile",
      Utils.EnvironmentDefault environ "OKTA_AWS_PROFILE" VNone
        (dict_get "profile" supplied));
     ("okta_org",
      Utils.EnvironmentDefault environ "OKTA_ORG" VNone
        (dict_get "okta_org" supplied));
     ("okta_aws_app_url",
      Utils.EnvironmentDefault environ "OKTA_AWS_APP_URL" VNone
        (dict_get "okta_aws_app_url" supplied));
     ("aws_role_to_assume",
      Utils.EnvironmentDefault environ "OKTA_AWS_ROLE_TO_ASSUME" VNone
        (dict_get "aws_role_to_assume" supplied));
     ("username",
      Utils.EnvironmentDefault environ "OKTA_USERNAME" VNone
        (dict_get "username" supplied));
     ("password",
      Utils.EnvironmentDefault environ "OKTA_PASSWORD" VNone
        (dict_get "password" supplied));
     ("sts_duration",
      Utils.EnvironmentDefault environ "OKTA_STS_DURATION" (VInt 3600)
        (dict_get "sts_duration" supplied));
     ("config_file",
      Utils.EnvironmentDefault environ "PYOKTA_AWS_CONFIG"
        (VStr "~/.pyokta_aws/config") (dict_get "config_file" supplied));
     ("non_interactive",
      default (VBool false) (dict_get "non_interactive" supplied));
     ("verbose", default (VBool false) (dict_get "verbose" supplied))].
Proof. reflexivity. Qed.

(** ** The resolution of options *)

(** C1. For every option of the parser bound to an environment variable,
    the value the parsed namespace holds follows the precedence command
    line, then environment, then static default ([None] when no default is
    declared): a value supplied on the command line is taken whatever the
    environment says; without one, a set environment variable is taken
    whatever the default is; without either, the default. *)
Theorem resolution_precedence (environ : string -> option string)
    (supplied : dict) (a : Argparse.action) (env : string) :
  In a (Settings.register_argparse_arguments []) ->
  env_bound a env ->
  let effective :=
    dict_get (Argparse.dest a)
      (Argparse.namespace environ (Settings.register_argparse_arguments []) supplied) in
  (forall v, dict_get (Argparse.dest a) supplied = Some v -> effective = Some v)
  /\ (forall e, dict_get (Argparse.dest a) supplied = None ->
                environ env = Some e -> effective = Some (VStr e))
  /\ (dict_get (Argparse.dest a) supplied = None ->
      environ env = None -> effective = Some (Argparse.default a)).
Proof.
  intros Hin Henv effective. subst effective.
  rewrite namespace_registered. unfold env_bound in Henv.
  simpl in Hin.
  repeat (destruct Hin as [<-|Hin]); try contradiction; try discriminate Henv;
    injection Henv as <-; simpl;
    unfold Argparse.dest_of; simpl;
    (split; [|split]); intros; unfold Utils.EnvironmentDefault;
    repeat match goal with H : _ = _ |- _ => rewrite H end; reflexivity.
Qed.

Lemma resolution_precedence_witness :
  let environ := fun name => if name =? "OKTA_AWS_PROFILE" then Some "staging" else None in
  dict_get "profile"
    (Argparse.namespace environ (Settings.register_argparse_arguments [])
       [("profile", VStr "acme")]) = Some (VStr "acme")
  /\ dict_get "profile"
       (Argparse.namespace environ (Settings.register_argparse_arguments []) [])
     = Some (VStr "staging").
Proof.
  intros environ.
  pose (a := Argparse.Action ["-p"; "--profile"] "profile"
               (Argparse.EnvironmentDefault "OKTA_AWS_PROFILE") VNone).
  assert (Hin : In a (Settings.register_argparse_arguments [])) by (simpl; auto).
  split.
  - apply (proj1 (resolution_precedence environ [("profile", VStr "acme")] a
                    "OKTA_AWS_PROFILE" Hin eq_refl)).
    reflexivity.
  - apply (proj1 (proj2 (resolution_precedence environ [] a
                           "OKTA_AWS_PROFILE" Hin eq_refl)));
      reflexivity.
Defined.

(** C5. When neither the command line nor the bound environment variable
    supplies a value, [sts_duration] resolves to 3600 and [config_file] to
    [~/.pyokta_aws/config]. *)
Theorem unset_options_take_defaults (environ : string -> option string)
    (supplied : dict) :
  let ns :=
    Argparse.namespace environ (Settings.register_argparse_arguments []) supplied in
  (dict_get "sts_duration" supplied = None ->
   environ "OKTA_STS_DURATION" = None ->
   dict_get "sts_duration" ns = Some (VInt 3600))
  /\ (dict_get "config_file" supplied = None ->
      environ "PYOKTA_AWS_CONFIG" = None ->
      dict_get "config_file" ns = Some (VStr "~/.pyokta_aws/config")).
Proof.
  intros ns. subst ns. rewrite namespace_registered.
  split; intros Hcli Henv; simpl; unfold Utils.EnvironmentDefault;
    now rewrite Hcli, Henv.
Qed.

Lemma unset_options_take_defaults_witness :
  let ns :=
    Argparse.namespace (fun _ => None) (Settings.register_argparse_arguments [])
      [("profile", VStr "acme")] in
  dict_get "sts_duration" ns = Some (VInt 3600)
  /\ dict_get "config_file" ns = Some (VStr "~/.pyokta_aws/config").
Proof.
  intros ns.
  destruct (unset_options_take_defaults (fun _ => None) [("profile", VStr "acme")])
    as [Hsts Hcfg].
  split; [apply Hsts | apply Hcfg]; reflexivity.
Defined.

(** ** Construction *)

Lemma bind_keywords_error (receiver : string) (params : list string)
    (positional kwargs named extra : dict) (e : exn) :
  Call.bind_keywords receiver params positional kwargs named extra = inl e ->
  exists k, e = TypeError (MultipleValues k).
Proof.
  revert named extra.
  induction kwargs as [|[k v] kwargs IH]; simpl; intros named extra H.
  - discriminate.
  - destruct ((k =? receiver) || has_key k positional).
    + injection H as <-. eauto.
    + destruct (existsb (String.eqb k) params); eauto.
Qed.

Lemma bind_arguments_keywords (kwargs : dict) :
  Call.bind_arguments "self" Settings.parameters [] kwargs
  = Call.bind_keywords "self" Settings.parameters [] kwargs [] [].
Proof.
  unfold Call.bind_arguments. simpl.
  now destruct (Call.bind_keywords _ _ _ _ _ _) as [e|[named extra]].
Qed.

(** C3. Constructing [Settings] with at least one positional argument
    after the receiver fails with the [TypeError] of the positional guard,
    and the new object has no attribute at that point; with keyword
    arguments only, construction never fails with that error. *)
Theorem positional_construction_is_rejected (args : list value)
    (kwargs : dict) (w : world) :
  (args <> [] ->
   Settings.new args kwargs w
   = (World (heap w ++ [[]]) (stdout w),
      inl (TypeError (PositionalNotAllowed 1 (S (length args))))))
  /\ (forall allowed received,
        (Settings.new [] kwargs w).2
        <> inl (TypeError (PositionalNotAllowed allowed received))).
Proof.
  split.
  - apply new_positional.
  - intros allowed received. rewrite new_keywords, bind_arguments_keywords.
    destruct (Call.bind_keywords _ _ _ _ _ _) as [e|[named extra]] eqn:Hbind;
      simpl; [|discriminate].
    apply bind_keywords_error in Hbind as [k ->]. discriminate.
Qed.

Lemma positional_construction_is_rejected_witness :
  Settings.new [VStr "myprofile"] [("username", VStr "fakeusername")] initial
  = (World [[]] [], inl (TypeError (PositionalNotAllowed 1 2))).
Proof.
  apply (proj1 (positional_construction_is_rejected
                  [VStr "myprofile"] [("username", VStr "fakeusername")] initial)).
  discriminate.
Defined.

(** Keywords none of which is named [self] construct an instance. *)
Lemma new_succeeds (kwargs : dict) (w : world) :
  ~ In "self" (keys kwargs) ->
  exists named ignored_kwargs,
    Call.bind_arguments "self" Settings.parameters [] kwargs
    = inr (named, ignored_kwargs)
    /\ Settings.new [] kwargs w
       = (World (heap w ++ [instance_attributes named]) (stdout w),
          inr (length (heap w))).
Proof.
  intros Hself.
  destruct (bind_keywords_accepts "self" Settings.parameters [] kwargs Hself
              (fun _ _ => eq_refl) [] []) as (named & extra & Hbind).
  exists named, extra. rewrite <- bind_arguments_keywords in Hbind.
  split; [exact Hbind|]. now rewrite new_keywords, Hbind.
Qed.

(** C8, as the code has it. Keyword arguments none of which is named
    [self] always construct a [Settings]: the instance gets exactly the
    eight stored attributes, so every key that is not a parameter is
    dropped without a trace. *)
Theorem unknown_keywords_are_discarded (kwargs : dict) (w : world) :
  ~ In "self" (keys kwargs) ->
  exists named ignored_kwargs,
    Call.bind_arguments "self" Settings.parameters [] kwargs
    = inr (named, ignored_kwargs)
    /\ Settings.new [] kwargs w
       = (World (heap w ++ [instance_attributes named]) (stdout w),
          inr (length (heap w)))
    /\ forall k, ~ In k Settings.parameters ->
         getattr (Settings.new [] kwargs w).1 (length (heap w)) k = None.
Proof.
  intros Hself.
  destruct (new_succeeds kwargs w Hself) as (named & extra & Hbind & Hnew).
  exists named, extra.
  repeat split; [exact Hbind | exact Hnew |].
  intros k Hk. rewrite Hnew. unfold getattr. cbn [fst heap].
  rewrite list_lookup_middle by reflexivity.
  change (dict_get k (instance_attributes named) = None).
  apply dict_get_None_keys. intros Hin. apply Hk.
  simpl in Hin |- *. tauto.
Qed.

Lemma unknown_keywords_are_discarded_witness :
  exists named ignored_kwargs,
    Call.bind_arguments "self" Settings.parameters []
      [("username", VStr "fakeusername"); ("aws_role_to_assume", VStr "admin")]
    = inr (named, ignored_kwargs)
    /\ Settings.new []
         [("username", VStr "fakeusername"); ("aws_role_to_assume", VStr "admin")]
         initial
       = (World (heap initial ++ [instance_attributes named]) (stdout initial),
          inr (length (heap initial)))
    /\ forall k, ~ In k Settings.parameters ->
         getattr (Settings.new []
                    [("username", VStr "fakeusername");
                     ("aws_role_to_assume", VStr "admin")] initial).1
                 (length (heap initial)) k = None.
Proof.
  apply unknown_keywords_are_discarded. simpl.
  intros [H|[H|[]]]; discriminate H.
Defined.

(** [self] is not a field of [Settings], yet the keyword [self] collides
    with the receiver and construction raises [TypeError]. *)
Lemma keyword_self_breaks_construction :
  ~ In "self" Settings.parameters
  /\ Settings.new [] [("self", VStr "me")] initial
     = (World [[]] [], inl (TypeError (MultipleValues "self"))).
Proof.
  split; [|reflexivity].
  simpl. intros H. repeat (destruct H as [H|H]; [discriminate H|]). exact H.
Qed.

(** ** Materialization *)

(** C4. [from_argparse] calls [cls] on the mapping in which [interactive]
    is the negation of the resolved [non_interactive] flag, [False] for
    [True] and [True] for [False] (and, for a value that is no boolean,
    [True] exactly when it is [None], [0] or the empty string), and from
    which the key [non_interactive] has been removed; the other entries
    are as they were resolved. *)
Theorem interactive_negates_non_interactive {A : Type}
    (cls : list value -> dict -> M A) (w : world) (args : loc)
    (ns : dict) (ni vb : value) :
  heap w !! args = Some ns ->
  dict_get "non_interactive" ns = Some ni ->
  dict_get "verbose" ns = Some vb ->
  exists (kwargs : dict) (w' : world) (interactive : bool),
    Settings.from_argparse cls args w = cls [] kwargs w'
    /\ heap w' !! args = Some kwargs
    /\ dict_get "interactive" kwargs = Some (VBool interactive)
    /\ (ni = VBool true -> interactive = false)
    /\ (ni = VBool false -> interactive = true)
    /\ (interactive = true
        <-> ni = VBool false \/ ni = VNone \/ ni = VInt 0 \/ ni = VStr "")
    /\ dict_get "non_interactive" kwargs = None
    /\ forall k, k <> "interactive" -> k <> "non_interactive" ->
         dict_get k kwargs = dict_get k ns.
Proof.
  intros Hargs Hni Hvb.
  exists (materialized ns ni). eexists. exists (negb (truthy ni)).
  split; [apply (from_argparse_run cls w args ns Hargs ni Hni vb Hvb)|].
  split; [apply (stored _ _ _ Hargs)|].
  split; [apply materialized_interactive|].
  split; [now intros ->|].
  split; [now intros ->|].
  split.
  - destruct ni as [|[|]|z|s]; simpl.
    + intuition discriminate.
    + intuition discriminate.
    + intuition discriminate.
    + destruct (Z.eqb_spec z 0) as [->|Hz]; simpl; [tauto|].
      split; [discriminate|].
      intros [H|[H|[H|H]]]; try discriminate H. injection H as ->. tauto.
    + destruct (String.eqb_spec s "") as [->|Hs]; simpl; [tauto|].
      split; [discriminate|].
      intros [H|[H|[H|H]]]; try discriminate H. injection H as ->. tauto.
  - split; [apply materialized_non_interactive|].
    intros k H1 H2. now apply materialized_other.
Qed.

Lemma interactive_negates_non_interactive_witness :
  (exists (kwargs : dict) (w' : world),
     Settings.from_argparse Settings.new 0
       (World [[("non_interactive", VBool true); ("verbose", VBool false)]] [])
     = Settings.new [] kwargs w'
     /\ heap w' !! 0 = Some kwargs
     /\ dict_get "interactive" kwargs = Some (VBool false)
     /\ dict_get "non_interactive" kwargs = None
     /\ dict_get "verbose" kwargs = Some (VBool false))
  /\ (exists (kwargs : dict) (w' : world),
        Settings.from_argparse Settings.new 0
          (World [[("non_interactive", VBool false); ("verbose", VBool false)]] [])
        = Settings.new [] kwargs w'
        /\ heap w' !! 0 = Some kwargs
        /\ dict_get "interactive" kwargs = Some (VBool true)
        /\ dict_get "non_interactive" kwargs = None
        /\ dict_get "verbose" kwargs = Some (VBool false)).
Proof.
  split.
  - destruct (interactive_negates_non_interactive Settings.new
                (World [[("non_interactive", VBool true); ("verbose", VBool false)]] [])
                0 _ (VBool true) (VBool false) eq_refl eq_refl eq_refl)
      as (kwargs & w' & b & Hrun & Hheap & Hint & Htrue & _ & _ & Hgone & Hrest).
    exists kwargs, w'. rewrite (Htrue eq_refl) in Hint.
    repeat split; try assumption.
    now rewrite Hrest by discriminate.
  - destruct (interactive_negates_non_interactive Settings.new
                (World [[("non_interactive", VBool false); ("verbose", VBool false)]] [])
                0 _ (VBool false) (VBool false) eq_refl eq_refl eq_refl)
      as (kwargs & w' & b & Hrun & Hheap & Hint & _ & Hfalse & _ & Hgone & Hrest).
    exists kwargs, w'. rewrite (Hfalse eq_refl) in Hint.
    repeat split; try assumption.
    now rewrite Hrest by discriminate.
Defined.

(** C9. [from_argparse] works on the namespace's own dictionary:
    [vars(args)] is the object itself, and after the call, whether or not
    it went through, the namespace that had [non_interactive] has lost it
    and holds [interactive] instead. *)
Theorem from_argparse_mutates_namespace (w : world) (args : loc)
    (ns : dict) (ni : value) :
  heap w !! args = Some ns ->
  dict_get "non_interactive" ns = Some ni ->
  let w' := (Settings.from_argparse Settings.new args w).1 in
  vars args w = (w, inr args)
  /\ getattr w args "non_interactive" = Some ni
  /\ getattr w' args "non_interactive" = None
  /\ getattr w' args "interactive" = Some (VBool (negb (truthy ni))).
Proof.
  intros Hargs Hni w'.
  assert (Hafter : heap w' !! args = Some (materialized ns ni)).
  { subst w'. destruct (dict_get "verbose" ns) as [vb|] eqn:Hvb.
    - rewrite (from_argparse_run _ w args ns Hargs ni Hni vb Hvb).
      apply new_frame, (stored _ _ _ Hargs).
    - rewrite (from_argparse_no_verbose _ w args ns Hargs ni Hni Hvb).
      apply (stored _ _ _ Hargs). }
  split; [apply (vars_run _ _ _ Hargs)|].
  unfold getattr. rewrite Hargs, Hafter.
  split; [exact Hni|].
  split; [apply materialized_non_interactive | apply materialized_interactive].
Qed.

Lemma from_argparse_mutates_namespace_witness :
  let w := World [[("non_interactive", VBool false); ("verbose", VBool false)]] [] in
  let w' := (Settings.from_argparse Settings.new 0 w).1 in
  vars 0 w = (w, inr 0)
  /\ getattr w 0 "non_interactive" = Some (VBool false)
  /\ getattr w' 0 "non_interactive" = None
  /\ getattr w' 0 "interactive" = Some (VBool (negb (truthy (VBool false)))).
Proof.
  intros w.
  apply (from_argparse_mutates_namespace w 0
           [("non_interactive", VBool false); ("verbose", VBool false)]
           (VBool false)); reflexivity.
Defined.

(** What [parse_args] returns for the registered options: a new object
    holding the resolved namespace, its attributes stored through
    [setattr]. *)
Lemma parse_args_registered (environ : string -> option string)
    (argv : list string) (w w' : world) (args : loc) :
  Argparse.parse_args environ (Settings.register_argparse_arguments []) argv w
  = (w', inr args) ->
  exists supplied,
    Argparse.scan (Settings.register_argparse_arguments []) argv [] = inr supplied
    /\ stdout w' = stdout w
    /\ heap w' !! args
       = Some (Argparse.namespace environ
                 (Settings.register_argparse_arguments []) supplied).
Proof.
  unfold Argparse.parse_args.
  destruct (Argparse.scan _ argv []) as [e|supplied]; [discriminate|].
  intros H. injection H as <- <-. exists supplied.
  split; [reflexivity|]. split; [reflexivity|].
  cbn [heap]. apply list_lookup_insert_eq. rewrite length_app. simpl. lia.
Qed.

(** C2. Two runs of [from_argparse], each on the namespace the registered
    parser returned, whose namespaces differ only in the value of
    [password] print the same text.  When [verbose] is true the text is the
    dump of the settings mapping; [password] is its sixth key, and the line
    printed for it is the fixed line with the marker [<redacted>], whatever
    the password is. *)
Theorem verbose_dump_redacts_password
    (environ1 environ2 : string -> option string) (argv1 argv2 : list string)
    (w1 w2 w1' w2' : world) (args1 args2 : loc) (ns1 ns2 : dict) :
  Argparse.parse_args environ1 (Settings.register_argparse_arguments []) argv1 w1
  = (w1', inr args1) ->
  Argparse.parse_args environ2 (Settings.register_argparse_arguments []) argv2 w2
  = (w2', inr args2) ->
  stdout w1 = stdout w2 ->
  heap w1' !! args1 = Some ns1 ->
  heap w2' !! args2 = Some ns2 ->
  differ_only_at "password" ns1 ns2 ->
  stdout (Settings.from_argparse Settings.new args1 w1').1
  = stdout (Settings.from_argparse Settings.new args2 w2').1
  /\ (forall vb,
        dict_get "verbose" ns1 = Some vb ->
        truthy vb = true ->
        exists settings : dict,
          stdout (Settings.from_argparse Settings.new args1 w1').1
          = (stdout w1 ++ dump settings)%list
          /\ heap (Settings.from_argparse Settings.new args1 w1').1 !! args1
             = Some settings
          /\ keys settings !! 5 = Some "password"
          /\ dump settings !! 6 = Some "password...........: <redacted>").
Proof.
  intros Hparse1 Hparse2 Hout H1 H2 Hdiff.
  destruct (parse_args_registered _ _ _ _ _ Hparse1) as (supplied1 & _ & Hout1 & Hns1).
  destruct (parse_args_registered _ _ _ _ _ Hparse2) as (supplied2 & _ & Hout2 & Hns2).
  rewrite H1 in Hns1. injection Hns1 as Hns1.
  assert (Hni1 : exists ni, dict_get "non_interactive" ns1 = Some ni)
    by (rewrite Hns1, namespace_registered; eexists; reflexivity).
  destruct Hni1 as [ni Hni1].
  assert (Hvb1 : exists vb, dict_get "verbose" ns1 = Some vb)
    by (rewrite Hns1, namespace_registered; eexists; reflexivity).
  destruct Hvb1 as [vb Hvb1].
  assert (Hni2 : dict_get "non_interactive" ns2 = Some ni)
    by (rewrite <- (differ_only_at_get "password" "non_interactive" _ _ Hdiff)
          by discriminate; exact Hni1).
  assert (Hvb2 : dict_get "verbose" ns2 = Some vb)
    by (rewrite <- (differ_only_at_get "password" "verbose" _ _ Hdiff)
          by discriminate; exact Hvb1).
  rewrite (from_argparse_run _ w1' args1 ns1 H1 ni Hni1 vb Hvb1).
  rewrite (from_argparse_run _ w2' args2 ns2 H2 ni Hni2 vb Hvb2).
  split.
  - rewrite !new_stdout. cbn [stdout]. rewrite Hout1, Hout2, Hout.
    now rewrite (dump_differ _ _ (differ_only_at_materialized _ _ _ ni Hdiff)).
  - intros vb' Hvb' Htrue. rewrite Hvb1 in Hvb'. injection Hvb' as <-.
    exists (materialized ns1 ni).
    split; [rewrite new_stdout; cbn [stdout]; now rewrite Htrue, Hout1|].
    split; [apply new_frame, (stored _ _ _ H1)|].
    rewrite Hns1, namespace_registered. split; reflexivity.
Qed.

Lemma verbose_dump_redacts_password_witness :
  let run pw :=
    (Settings.invoke (fun _ => None) ["--verbose"; "-pw"; pw] initial).1 in
  stdout (run "hunter2") = stdout (run "correct horse")
  /\ stdout (run "hunter2") !! 6 = Some "password...........: <redacted>".
Proof.
  intros run.
  pose (ns := fun pw : string =>
          Argparse.namespace (fun _ => None) (Settings.register_argparse_arguments [])
            [("verbose", VBool true); ("password", VStr pw)]).
  assert (Hdiff : differ_only_at "password" (ns "hunter2") (ns "correct horse")).
  { unfold ns, differ_only_at. rewrite !namespace_registered.
    repeat (constructor; [split; [reflexivity|]; cbn [fst snd]; intros Hne|]);
      try constructor; try (exfalso; apply Hne; reflexivity); reflexivity. }
  destruct (verbose_dump_redacts_password (fun _ => None) (fun _ => None)
              ["--verbose"; "-pw"; "hunter2"] ["--verbose"; "-pw"; "correct horse"]
              initial initial (World [ns "hunter2"] []) (World [ns "correct horse"] [])
              0 0 (ns "hunter2") (ns "correct horse")
              eq_refl eq_refl eq_refl eq_refl eq_refl Hdiff) as [Hsame Hdump].
  split; [exact Hsame|].
  destruct (Hdump (VBool true) eq_refl eq_refl) as (settings & Hout & _ & _ & Hline).
  change (stdout (run "hunter2"))
    with (stdout (Settings.from_argparse Settings.new 0
                    (World [ns "hunter2"] [])).1).
  rewrite Hout. exact Hline.
Defined.

(** ** The role to assume *)

(** A keyword that is no parameter is bound to no parameter and ends up
    among the extra keywords. *)
Lemma bind_keywords_extra (receiver : string) (params : list string)
    (positional : dict) (k : string) (kwargs : dict) :
  existsb (String.eqb k) params = false ->
  forall named extra named' extra',
    Call.bind_keywords receiver params positional kwargs named extra
    = inr (named', extra') ->
    dict_get k named' = dict_get k named
    /\ (is_Some (dict_get k kwargs) \/ is_Some (dict_get k extra) ->
        is_Some (dict_get k extra')).
Proof.
  intros Hk. induction kwargs as [|[k1 v1] kwargs IH]; simpl;
    intros named extra named' extra' H.
  - injection H as <- <-. split; [reflexivity|].
    intros [[v Hv]|Hex]; [discriminate | exact Hex].
  - destruct ((k1 =? receiver) || has_key k1 positional); [discriminate|].
    destruct (existsb (String.eqb k1) params) eqn:Hparam.
    + assert (Hne : k1 <> k) by (intros ->; congruence).
      apply IH in H as [Hnamed Hextra].
      rewrite dict_get_set_ne in Hnamed by assumption.
      split; [exact Hnamed|].
      destruct (String.eqb_spec k1 k); [contradiction | exact Hextra].
    + apply IH in H as [Hnamed Hextra]. split; [exact Hnamed|].
      intros Hsome. apply Hextra.
      destruct (String.eqb_spec k1 k) as [->|Hne].
      * right. rewrite dict_get_set_eq. eauto.
      * rewrite dict_get_set_ne by assumption. exact Hsome.
Qed.

(** C10. The option [-r/--aws-role-to-assume], with its environment
    variable [OKTA_AWS_ROLE_TO_ASSUME], is registered, but [Settings] has
    no parameter for it: the constructor binds its value to no parameter
    and leaves it among the ignored keywords, and two runs of
    [from_argparse] on namespaces that differ only in the role end alike,
    with equal instances that have no attribute for the role. *)
Theorem role_to_assume_is_dropped (w1 w2 : world) (args1 args2 : loc)
    (ns1 ns2 : dict) :
  heap w1 !! args1 = Some ns1 ->
  heap w2 !! args2 = Some ns2 ->
  differ_only_at "aws_role_to_assume" ns1 ns2 ->
  In (Argparse.Action ["-r"; "--aws-role-to-assume"] "aws_role_to_assume"
        (Argparse.EnvironmentDefault "OKTA_AWS_ROLE_TO_ASSUME") VNone)
     (Settings.register_argparse_arguments [])
  /\ ~ In "aws_role_to_assume" Settings.parameters
  /\ (forall kwargs named ignored_kwargs,
        Call.bind_arguments "self" Settings.parameters [] kwargs
        = inr (named, ignored_kwargs) ->
        dict_get "aws_role_to_assume" named = None
        /\ (is_Some (dict_get "aws_role_to_assume" kwargs) ->
            is_Some (dict_get "aws_role_to_assume" ignored_kwargs)))
  /\ match Settings.from_argparse Settings.new args1 w1,
           Settings.from_argparse Settings.new args2 w2 with
     | (w1', inr settings1), (w2', inr settings2) =>
         heap w1' !! settings1 = heap w2' !! settings2
         /\ is_Some (heap w1' !! settings1)
         /\ getattr w1' settings1 "aws_role_to_assume" = None
         /\ getattr w2' settings2 "aws_role_to_assume" = None
     | (_, inl e1), (_, inl e2) => e1 = e2
     | _, _ => False
     end.
Proof.
  intros H1 H2 Hdiff.
  split; [simpl; tauto|].
  split.
  { simpl. intros H. repeat (destruct H as [H|H]; [discriminate H|]). exact H. }
  split.
  { intros kwargs named ignored Hbind.
    rewrite bind_arguments_keywords in Hbind.
    apply (bind_keywords_extra _ _ _ "aws_role_to_assume") in Hbind as [Hn He];
      [|reflexivity].
    split; [exact Hn | auto]. }
  assert (Hni := differ_only_at_get _ "non_interactive" _ _ Hdiff
                   ltac:(discriminate)).
  assert (Hvb := differ_only_at_get _ "verbose" _ _ Hdiff ltac:(discriminate)).
  destruct (dict_get "non_interactive" ns1) as [ni|] eqn:Hni1.
  - destruct (dict_get "verbose" ns1) as [vb|] eqn:Hvb1.
    + rewrite (from_argparse_run _ w1 args1 ns1 H1 ni Hni1 vb Hvb1).
      rewrite (from_argparse_run _ w2 args2 ns2 H2 ni (eq_sym Hni) vb (eq_sym Hvb)).
      rewrite !new_keywords, !bind_arguments_keywords.
      pose proof (bind_keywords_differ "self" Settings.parameters []
                    "aws_role_to_assume" _ _ eq_refl
                    (differ_only_at_materialized _ _ _ ni Hdiff) [] [] [])
        as Hsame.
      destruct (Call.bind_keywords _ _ _ (materialized ns1 ni) _ _)
        as [e1|[named1 extra1]],
          (Call.bind_keywords _ _ _ (materialized ns2 ni) _ _)
        as [e2|[named2 extra2]]; try contradiction; [exact Hsame|].
      subst named2. unfold getattr. cbn [heap].
      rewrite !list_lookup_middle by reflexivity.
      repeat split; eauto.
    + rewrite (from_argparse_no_verbose _ w1 args1 ns1 H1 ni Hni1 Hvb1).
      now rewrite (from_argparse_no_verbose _ w2 args2 ns2 H2 ni (eq_sym Hni)
                     (eq_sym Hvb)).
  - rewrite (from_argparse_no_flag _ w1 args1 ns1 H1 Hni1).
    now rewrite (from_argparse_no_flag _ w2 args2 ns2 H2 (eq_sym Hni)).
Qed.

Lemma role_to_assume_is_dropped_witness :
  let ns role := [("aws_role_to_assume", role); ("username", VStr "jdoe");
                  ("non_interactive", VBool false); ("verbose", VBool false)] in
  let run role := Settings.from_argparse Settings.new 0 (World [ns role] []) in
  heap (run (VStr "123/AWSAdmin/jdoe")).1 !! 1 = heap (run VNone).1 !! 1
  /\ getattr (run (VStr "123/AWSAdmin/jdoe")).1 1 "aws_role_to_assume" = None
  /\ getattr (run (VStr "123/AWSAdmin/jdoe")).1 1 "username" = Some (VStr "jdoe").
Proof.
  intros ns run.
  assert (Hdiff : differ_only_at "aws_role_to_assume"
                    (ns (VStr "123/AWSAdmin/jdoe")) (ns VNone)).
  { repeat constructor; simpl; congruence. }
  destruct (role_to_assume_is_dropped
              (World [ns (VStr "123/AWSAdmin/jdoe")] []) (World [ns VNone] [])
              0 0 _ _ eq_refl eq_refl Hdiff) as (_ & _ & _ & Hruns).
  change (Settings.from_argparse Settings.new 0
            (World [ns (VStr "123/AWSAdmin/jdoe")] []))
    with (run (VStr "123/AWSAdmin/jdoe")) in Hruns.
  change (Settings.from_argparse Settings.new 0 (World [ns VNone] []))
    with (run VNone) in Hruns.
  assert (E1 : (run (VStr "123/AWSAdmin/jdoe")).2 = inr 1) by reflexivity.
  assert (E2 : (run VNone).2 = inr 1) by reflexivity.
  assert (E3 : getattr (run (VStr "123/AWSAdmin/jdoe")).1 1 "username"
               = Some (VStr "jdoe")) by reflexivity.
  destruct (run (VStr "123/AWSAdmin/jdoe")) as [w1' r1], (run VNone) as [w2' r2].
  simpl in E1, E2. subst r1 r2.
  destruct Hruns as (Heq & _ & Hnone & _).
  split; [exact Heq|]. split; [exact Hnone | exact E3].
Defined.

(** ** The worked example *)

(** C6. Invoking with [--profile acme --verbose] and an empty environment
    returns an instance with [profile], [config_file] and [sts_duration] as
    the example says and prints the redacted password line; but the
    instance has no attribute [interactive]: the value [True] is computed
    into the namespace's mapping and passed to [__init__], which never
    stores it, for any keyword arguments. *)
Theorem example_profile_acme_verbose :
  let run := Settings.invoke (fun _ => None) ["--profile"; "acme"; "--verbose"] initial in
  run.2 = inr 1
  /\ getattr run.1 1 "profile" = Some (VStr "acme")
  /\ getattr run.1 1 "config_file" = Some (VStr "~/.pyokta_aws/config")
  /\ getattr run.1 1 "sts_duration" = Some (VInt 3600)
  /\ In "password...........: <redacted>" (stdout run.1)
  /\ getattr run.1 0 "interactive" = Some (VBool true)
  /\ getattr run.1 1 "interactive" = None
  /\ forall kwargs w,
       getattr (Settings.new [] kwargs w).1 (length (heap w)) "interactive" = None.
Proof.
  intros run.
  repeat match goal with |- _ /\ _ => split end.
  1-4, 6-7: vm_compute; reflexivity.
  - vm_compute. tauto.
  - intros kwargs w. rewrite new_keywords. unfold getattr.
    destruct (Call.bind_arguments _ _ _ _) as [e|[named extra]]; cbn [fst heap];
      now rewrite list_lookup_middle.
Qed.

(** ** No failure after parsing *)

(** C7. On every namespace the registered parser returns, whatever the
    environment and the command line, and so also when [username],
    [password] or [okta_org] stay [None], [from_argparse] raises nothing
    and returns one new [Settings] instance. *)
Theorem from_argparse_never_raises (environ : string -> option string)
    (argv : list string) (w w1 : world) (args : loc) :
  Argparse.parse_args environ (Settings.register_argparse_arguments []) argv w
  = (w1, inr args) ->
  exists (w2 : world) (settings : loc) (attributes : dict),
    Settings.from_argparse Settings.new args w1 = (w2, inr settings)
    /\ settings = length (heap w1)
    /\ heap w2 !! settings = Some attributes.
Proof.
  unfold Argparse.parse_args.
  destruct (Argparse.scan _ argv []) as [e|supplied]; [discriminate|].
  rewrite namespace_registered.
  set (ns := (_ :: _) : dict).
  intros H. injection H as <- <-.
  assert (Hargs : heap (World (<[length (heap w) := ns]> (heap w ++ [[]])%list)
                          (stdout w)) !! length (heap w) = Some ns).
  { cbn [heap]. apply list_lookup_insert_eq. rewrite length_app. simpl. lia. }
  erewrite (from_argparse_run _ _ _ ns Hargs); [|reflexivity..].
  match goal with
  | |- context [Settings.new [] ?kw ?w'] =>
      destruct (new_succeeds kw w') as (named & extra & _ & ->)
  end.
  - intros Hin. apply keys_dict_set in Hin as [Hin|Hin]; [discriminate|].
    apply keys_dict_del in Hin. simpl in Hin.
    repeat (destruct Hin as [Hin|Hin]; [discriminate Hin|]). exact Hin.
  - do 3 eexists. split; [reflexivity|].
    cbn [heap]. split; [now rewrite !length_insert|].
    now apply list_lookup_middle.
Qed.

Lemma from_argparse_never_raises_witness :
  exists (w2 : world) (settings : loc) (attributes : dict),
    Settings.from_argparse Settings.new 0
      (World [[("profile", VNone); ("okta_org", VNone); ("okta_aws_app_url", VNone);
               ("aws_role_to_assume", VNone); ("username", VNone);
               ("password", VNone); ("sts_duration", VInt 3600);
               ("config_file", VStr "~/.pyokta_aws/config");
               ("non_interactive", VBool false); ("verbose", VBool false)]] [])
    = (w2, inr settings)
    /\ settings = 1
    /\ heap w2 !! settings = Some attributes.
Proof.
  apply (from_argparse_never_raises (fun _ => None) [] initial).
  reflexivity.
Defined.

(** ** Further properties of construction *)

Section KeywordLookup.

Variables (receiver : string) (params : list string).

(** With distinct keywords, none of them the receiver's name, every
    parameter named by a keyword gets that keyword's value. *)
Lemma bind_keywords_lookup (kwargs : dict) :
  NoDup (keys kwargs) ->
  ~ In receiver (keys kwargs) ->
  forall named extra,
    exists named' extra',
      Call.bind_keywords receiver params [] kwargs named extra
      = inr (named', extra')
      /\ forall k,
           dict_get k named'
           = match (if existsb (String.eqb k) params
                    then dict_get k kwargs else None) with
             | Some v => Some v
             | None => dict_get k named
             end.
Proof.
  induction kwargs as [|[k1 v1] kwargs IH]; simpl; intros Hnodup Hself named extra.
  - exists named, extra. split; [reflexivity|].
    intros k. now destruct (existsb _ params).
  - apply NoDup_cons in Hnodup as [Hfresh Hnodup].
    rewrite list_elem_of_In in Hfresh.
    destruct (String.eqb_spec k1 receiver) as [->|_]; [tauto|].
    simpl. destruct (existsb (String.eqb k1) params) eqn:Hparam.
    + destruct (IH Hnodup ltac:(tauto) (dict_set k1 v1 named) extra)
        as (named' & extra' & -> & Hget).
      exists named', extra'. split; [reflexivity|].
      intros k. rewrite Hget.
      destruct (String.eqb_spec k1 k) as [<-|Hne].
      * rewrite Hparam, (dict_get_None_keys _ _ Hfresh).
        apply dict_get_set_eq.
      * destruct (if existsb _ params then _ else _); [reflexivity|].
        now apply dict_get_set_ne.
    + destruct (IH Hnodup ltac:(tauto) named (dict_set k1 v1 extra))
        as (named' & extra' & -> & Hget).
      exists named', extra'. split; [reflexivity|].
      intros k. rewrite Hget.
      destruct (String.eqb_spec k1 k) as [<-|Hne]; [|reflexivity].
      now rewrite Hparam.
Qed.

(** Keyword lists that differ under one key bind alike everywhere else. *)
Lemma bind_keywords_agree (positional : dict) (k : string) (kw1 kw2 : dict) :
  differ_only_at k kw1 kw2 ->
  forall named1 named2 extra1 extra2,
    (forall k', k' <> k -> dict_get k' named1 = dict_get k' named2) ->
    match Call.bind_keywords receiver params positional kw1 named1 extra1,
          Call.bind_keywords receiver params positional kw2 named2 extra2 with
    | inl e1, inl e2 => e1 = e2
    | inr (named1', _), inr (named2', _) =>
        forall k', k' <> k -> dict_get k' named1' = dict_get k' named2'
    | _, _ => False
    end.
Proof.
  induction 1 as [|[k1 v1] [k2 v2] kw1 kw2 [Hkey Hval] _ IH]; simpl in *;
    intros named1 named2 extra1 extra2 Hagree.
  - exact Hagree.
  - subst k2.
    destruct ((k1 =? receiver) || has_key k1 positional); [reflexivity|].
    destruct (existsb (String.eqb k1) params); [|now apply IH].
    apply IH. intros k' Hk'.
    destruct (String.eqb_spec k1 k') as [<-|Hne].
    + rewrite !dict_get_set_eq. now rewrite Hval.
    + rewrite !dict_get_set_ne by assumption. now apply Hagree.
Qed.

End KeywordLookup.

Lemma differ_only_at_del_same (k : string) (d1 d2 : dict) :
  differ_only_at k d1 d2 -> dict_del k d1 = dict_del k d2.
Proof.
  induction 1 as [|[k1 v1] [k2 v2] d1 d2 [Hkey Hval] _ IH]; simpl in *;
    [reflexivity|].
  subst k2. destruct (String.eqb_spec k1 k) as [->|Hne]; [exact IH|].
  now rewrite Hval, IH.
Qed.

Lemma differ_only_at_get_None (k k' : string) (d1 d2 : dict) :
  differ_only_at k d1 d2 -> dict_get k' d1 = None -> dict_get k' d2 = None.
Proof.
  induction 1 as [|[k1 v1] [k2 v2] d1 d2 [Hkey Hval] _ IH]; simpl in *;
    [reflexivity|].
  subst k2. destruct (k1 =? k'); [discriminate | exact IH].
Qed.

Lemma differ_only_at_get_Some (k k' : string) (d1 d2 : dict) (v1 : value) :
  differ_only_at k d1 d2 -> dict_get k' d1 = Some v1 ->
  exists v2, dict_get k' d2 = Some v2.
Proof.
  induction 1 as [|[k1 x1] [k2 x2] d1 d2 [Hkey Hval] _ IH]; simpl in *;
    [discriminate|].
  subst k2. destruct (k1 =? k'); eauto.
Qed.

Lemma instance_attributes_agree (named1 named2 : dict) :
  (forall k, k <> "interactive" -> dict_get k named1 = dict_get k named2) ->
  instance_attributes named1 = instance_attributes named2.
Proof.
  intros H. unfold instance_attributes, Call.argument.
  now rewrite !H by discriminate.
Qed.

(** X1. Keyword construction keeps what it is given: for distinct
    keywords none of which is [self], each of the eight stored attributes
    is the value of the keyword of its name, or the parameter's default
    when there is no such keyword, and no other attribute exists. *)
Theorem construction_stores_keywords (kwargs : dict) (w : world) :
  NoDup (keys kwargs) ->
  ~ In "self" (keys kwargs) ->
  exists w',
    Settings.new [] kwargs w = (w', inr (length (heap w)))
    /\ heap w' !! length (heap w)
       = Some (map (fun '(name, d) => (name, default d (dict_get name kwargs)))
                   stored_parameters).
Proof.
  intros Hnodup Hself.
  destruct (bind_keywords_lookup "self" Settings.parameters kwargs Hnodup Hself
              [] []) as (named & extra & Hbind & Hget).
  rewrite <- bind_arguments_keywords in Hbind.
  eexists. rewrite new_keywords, Hbind. split; [reflexivity|].
  cbn [heap]. rewrite list_lookup_middle by reflexivity. f_equal.
  assert (Harg : forall n d,
             existsb (String.eqb n) Settings.parameters = true ->
             Call.argument named n d = default d (dict_get n kwargs)).
  { intros n d Hn. unfold Call.argument. rewrite Hget, Hn.
    now destruct (dict_get n kwargs). }
  unfold instance_attributes, stored_parameters.
  now rewrite !Harg by reflexivity.
Qed.

Lemma construction_stores_keywords_witness :
  exists w',
    Settings.new [] [("username", VStr "jdoe"); ("verbose", VBool true);
                     ("region", VStr "eu")] initial
    = (w', inr 0)
    /\ heap w' !! 0
       = Some [("profile", VNone); ("username", VStr "jdoe"); ("password", VNone);
               ("okta_org", VNone); ("okta_aws_app_url", VNone);
               ("sts_duration", VNone);
               ("config_file", VStr "~/.pyokta_aws/config");
               ("verbose", VBool true)].
Proof.
  apply (construction_stores_keywords
           [("username", VStr "jdoe"); ("verbose", VBool true);
            ("region", VStr "eu")] initial).
  - repeat constructor; rewrite list_elem_of_In; simpl; intuition discriminate.
  - simpl. intuition discriminate.
Defined.

(** ** Further properties of [from_argparse] *)

(** The namespace once [from_argparse] has got past line 159. *)
Lemma namespace_after (w : world) (args : loc) (ns : dict) (ni : value) :
  heap w !! args = Some ns ->
  dict_get "non_interactive" ns = Some ni ->
  heap (Settings.from_argparse Settings.new args w).1 !! args
  = Some (materialized ns ni).
Proof.
  intros Hargs Hni. destruct (dict_get "verbose" ns) as [vb|] eqn:Hvb.
  - rewrite (from_argparse_run _ w args ns Hargs ni Hni vb Hvb).
    apply new_frame, (stored _ _ _ Hargs).
  - rewrite (from_argparse_no_verbose _ w args ns Hargs ni Hni Hvb).
    apply (stored _ _ _ Hargs).
Qed.

(** X2. [from_argparse] cannot be called twice on one namespace: the
    first call has popped [non_interactive], so a second call on the same
    object raises [KeyError] for that key and changes nothing more. *)
Theorem from_argparse_not_repeatable (w : world) (args : loc) (ns : dict)
    (ni : value) :
  heap w !! args = Some ns ->
  dict_get "non_interactive" ns = Some ni ->
  let w' := (Settings.from_argparse Settings.new args w).1 in
  Settings.from_argparse Settings.new args w'
  = (w', inl (KeyError "non_interactive")).
Proof.
  intros Hargs Hni w'.
  apply from_argparse_no_flag with (materialized ns ni).
  - apply (namespace_after w args ns ni Hargs Hni).
  - apply materialized_non_interactive.
Qed.

Lemma from_argparse_not_repeatable_witness :
  let w := World [[("profile", VStr "acme"); ("non_interactive", VBool false);
                   ("verbose", VBool true)]] [] in
  let w' := (Settings.from_argparse Settings.new 0 w).1 in
  Settings.from_argparse Settings.new 0 w'
  = (w', inl (KeyError "non_interactive")).
Proof.
  intros w.
  apply (from_argparse_not_repeatable w 0
           [("profile", VStr "acme"); ("non_interactive", VBool false);
            ("verbose", VBool true)] (VBool false)); reflexivity.
Defined.

(** X3. [from_argparse] prints only when [verbose] is true: if the
    namespace's [verbose] is missing or false in the sense of truth value
    testing ([False], [None], [0], the empty string), standard output is
    left as it was, whether the call succeeds or raises. *)
Theorem from_argparse_silent_unless_verbose (w : world) (args : loc) (ns : dict) :
  heap w !! args = Some ns ->
  (forall vb, dict_get "verbose" ns = Some vb -> truthy vb = false) ->
  stdout (Settings.from_argparse Settings.new args w).1 = stdout w.
Proof.
  intros Hargs Hquiet.
  destruct (dict_get "non_interactive" ns) as [ni|] eqn:Hni.
  - destruct (dict_get "verbose" ns) as [vb|] eqn:Hvb.
    + rewrite (from_argparse_run _ w args ns Hargs ni Hni vb Hvb).
      rewrite new_stdout. cbn [stdout]. rewrite (Hquiet vb eq_refl).
      apply app_nil_r.
    + now rewrite (from_argparse_no_verbose _ w args ns Hargs ni Hni Hvb).
  - now rewrite (from_argparse_no_flag _ w args ns Hargs Hni).
Qed.

Lemma from_argparse_silent_unless_verbose_witness :
  stdout (Settings.from_argparse Settings.new 0
            (World [[("password", VStr "hunter2"); ("non_interactive", VBool false);
                     ("verbose", VStr "")]] ["earlier line"])).1
  = ["earlier line"].
Proof.
  apply (from_argparse_silent_unless_verbose
           (World [[("password", VStr "hunter2"); ("non_interactive", VBool false);
                    ("verbose", VStr "")]] ["earlier line"]) 0 _ eq_refl).
  intros vb Hvb. injection Hvb as <-. reflexivity.
Defined.

(** X4. Missing keys. A namespace without [non_interactive] makes
    [from_argparse] raise [KeyError] and leave the world untouched.  A
    namespace with [non_interactive] but without [verbose] raises
    [KeyError] for [verbose] only after the namespace has been changed in
    place: the change is not undone, nothing is printed and no instance is
    made. *)
Theorem from_argparse_missing_keys (w : world) (args : loc) (ns : dict) :
  heap w !! args = Some ns ->
  (dict_get "non_interactive" ns = None ->
   Settings.from_argparse Settings.new args w
   = (w, inl (KeyError "non_interactive")))
  /\ (forall ni,
        dict_get "non_interactive" ns = Some ni ->
        dict_get "verbose" ns = None ->
        Settings.from_argparse Settings.new args w
        = (World (<[args := materialized ns ni]> (heap w)) (stdout w),
           inl (KeyError "verbose"))
        /\ length (<[args := materialized ns ni]> (heap w)) = length (heap w)
        /\ dict_get "interactive" (materialized ns ni)
           = Some (VBool (negb (truthy ni)))
        /\ dict_get "non_interactive" (materialized ns ni) = None).
Proof.
  intros Hargs. split.
  - apply (from_argparse_no_flag _ w args ns Hargs).
  - intros ni Hni Hvb. split; [|split; [|split]].
    + apply (from_argparse_no_verbose _ w args ns Hargs ni Hni Hvb).
    + apply length_insert.
    + apply materialized_interactive.
    + apply materialized_non_interactive.
Qed.

Lemma from_argparse_missing_keys_witness :
  Settings.from_argparse Settings.new 0 (World [[("profile", VStr "acme")]] [])
  = (World [[("profile", VStr "acme")]] [], inl (KeyError "non_interactive"))
  /\ Settings.from_argparse Settings.new 0
       (World [[("profile", VStr "acme"); ("non_interactive", VBool true)]] [])
     = (World [[("profile", VStr "acme"); ("interactive", VBool false)]] [],
        inl (KeyError "verbose")).
Proof.
  split.
  - apply (proj1 (from_argparse_missing_keys
                    (World [[("profile", VStr "acme")]] []) 0 _ eq_refl)).
    reflexivity.
  - apply (proj2 (from_argparse_missing_keys
                    (World [[("profile", VStr "acme"); ("non_interactive", VBool true)]] [])
                    0 _ eq_refl) (VBool true)); reflexivity.
Defined.

(** X7. The switch [--non-interactive] does not reach the instance: two
    runs of [from_argparse] on namespaces that differ only in the value of
    [non_interactive] raise the same error or return equal instances. *)
Theorem non_interactive_has_no_effect_on_instance (w1 w2 : world)
    (args1 args2 : loc) (ns1 ns2 : dict) :
  heap w1 !! args1 = Some ns1 ->
  heap w2 !! args2 = Some ns2 ->
  differ_only_at "non_interactive" ns1 ns2 ->
  match Settings.from_argparse Settings.new args1 w1,
        Settings.from_argparse Settings.new args2 w2 with
  | (w1', inr settings1), (w2', inr settings2) =>
      heap w1' !! settings1 = heap w2' !! settings2
      /\ is_Some (heap w1' !! settings1)
  | (_, inl e1), (_, inl e2) => e1 = e2
  | _, _ => False
  end.
Proof.
  intros H1 H2 Hdiff.
  assert (Hvb := differ_only_at_get _ "verbose" _ _ Hdiff ltac:(discriminate)).
  destruct (dict_get "non_interactive" ns1) as [ni1|] eqn:Hni1.
  - destruct (differ_only_at_get_Some _ _ _ _ _ Hdiff Hni1) as [ni2 Hni2].
    destruct (dict_get "verbose" ns1) as [vb|] eqn:Hvb1.
    + rewrite (from_argparse_run _ w1 args1 ns1 H1 ni1 Hni1 vb Hvb1).
      rewrite (from_argparse_run _ w2 args2 ns2 H2 ni2 Hni2 vb (eq_sym Hvb)).
      rewrite !new_keywords, !bind_arguments_keywords.
      assert (Hkw : differ_only_at "interactive"
                      (materialized ns1 ni1) (materialized ns2 ni2)).
      { unfold materialized. rewrite (differ_only_at_del_same _ _ _ Hdiff).
        apply differ_only_at_set. }
      pose proof (bind_keywords_agree "self" Settings.parameters [] _ _ _ Hkw
                    [] [] [] [] (fun _ _ => eq_refl)) as Hsame.
      destruct (Call.bind_keywords _ _ _ (materialized ns1 ni1) _ _)
        as [e1|[named1 extra1]],
          (Call.bind_keywords _ _ _ (materialized ns2 ni2) _ _)
        as [e2|[named2 extra2]]; try contradiction; [exact Hsame|].
      cbn [heap]. rewrite !list_lookup_middle by reflexivity.
      rewrite (instance_attributes_agree _ _ Hsame). eauto.
    + rewrite (from_argparse_no_verbose _ w1 args1 ns1 H1 ni1 Hni1 Hvb1).
      now rewrite (from_argparse_no_verbose _ w2 args2 ns2 H2 ni2 Hni2
                     (eq_sym Hvb)).
  - rewrite (from_argparse_no_flag _ w1 args1 ns1 H1 Hni1).
    now rewrite (from_argparse_no_flag _ w2 args2 ns2 H2
                   (differ_only_at_get_None _ _ _ _ Hdiff Hni1)).
Qed.

Lemma non_interactive_has_no_effect_on_instance_witness :
  let ns flag := [("username", VStr "jdoe"); ("non_interactive", flag);
                  ("verbose", VBool false)] in
  let run flag := Settings.from_argparse Settings.new 0 (World [ns flag] []) in
  heap (run (VBool true)).1 !! 1 = heap (run (VBool false)).1 !! 1
  /\ getattr (run (VBool true)).1 0 "interactive" = Some (VBool false)
  /\ getattr (run (VBool false)).1 0 "interactive" = Some (VBool true).
Proof.
  intros ns run.
  assert (Hdiff : differ_only_at "non_interactive" (ns (VBool true)) (ns (VBool false))).
  { repeat constructor; simpl; congruence. }
  pose proof (non_interactive_has_no_effect_on_instance
                (World [ns (VBool true)] []) (World [ns (VBool false)] [])
                0 0 _ _ eq_refl eq_refl Hdiff) as Hruns.
  change (Settings.from_argparse Settings.new 0 (World [ns (VBool true)] []))
    with (run (VBool true)) in Hruns.
  change (Settings.from_argparse Settings.new 0 (World [ns (VBool false)] []))
    with (run (VBool false)) in Hruns.
  assert (E1 : (run (VBool true)).2 = inr 1) by reflexivity.
  assert (E2 : (run (VBool false)).2 = inr 1) by reflexivity.
  assert (E3 : getattr (run (VBool true)).1 0 "interactive" = Some (VBool false))
    by reflexivity.
  assert (E4 : getattr (run (VBool false)).1 0 "interactive" = Some (VBool true))
    by reflexivity.
  destruct (run (VBool true)) as [w1' r1], (run (VBool false)) as [w2' r2].
  simpl in E1, E2. subst r1 r2.
  destruct Hruns as [Heq _]. auto.
Defined.

(** ** Further properties of a whole run *)

Section Registered.

Variables (environ : string -> option string) (supplied : dict).

Let ns : dict :=
  Argparse.namespace environ (Settings.register_argparse_arguments []) supplied.

(** How the constructor's parameters are bound on a parsed namespace. *)
Lemma bind_registered (ni : value) :
  Call.bind_arguments "self" Settings.parameters [] (materialized ns ni)
  = inr (List.filter (fun i => existsb (String.eqb i.1) Settings.parameters)
           (materialized ns ni),
         [("aws_role_to_assume",
           Utils.EnvironmentDefault environ "OKTA_AWS_ROLE_TO_ASSUME" VNone
             (dict_get "aws_role_to_assume" supplied))]).
Proof. reflexivity. Qed.

(** X6. On a parsed namespace the constructor ignores exactly one
    keyword, [aws_role_to_assume]; every parameter of [__init__] has a
    keyword of its name and is bound to that keyword's value. *)
Theorem only_the_role_is_ignored (ni : value) :
  exists named role,
    Call.bind_arguments "self" Settings.parameters [] (materialized ns ni)
    = inr (named, [("aws_role_to_assume", role)])
    /\ dict_get "aws_role_to_assume" (materialized ns ni) = Some role
    /\ forall name, In name Settings.parameters ->
         is_Some (dict_get name named)
         /\ dict_get name named = dict_get name (materialized ns ni).
Proof.
  do 2 eexists. split; [apply bind_registered|]. split; [reflexivity|].
  intros name Hin. simpl in Hin.
  repeat (destruct Hin as [<-|Hin]; [split; [eexists|]; reflexivity|]).
  contradiction.
Qed.

End Registered.

Section Invocation.

Variables (environ : string -> option string) (argv : list string)
  (supplied : dict) (w : world).

Hypothesis Hscan :
  Argparse.scan (Settings.register_argparse_arguments []) argv [] = inr supplied.

Let ns : dict :=
  Argparse.namespace environ (Settings.register_argparse_arguments []) supplied.
Let ni : value := default (VBool false) (dict_get "non_interactive" supplied).
Let vb : value := default (VBool false) (dict_get "verbose" supplied).

(** A run whose command line parses: the namespace is made, changed in
    place and dumped if asked, and the constructor is called. *)
Lemma invoke_run :
  Settings.invoke environ argv w
  = Settings.new [] (materialized ns ni)
      (World (heap w ++ [materialized ns ni])
             (stdout w ++ if truthy vb then dump (materialized ns ni) else [])).
Proof.
  unfold Settings.invoke, Argparse.parse_args. rewrite Hscan.
  erewrite bind_ok; cycle 1.
  { erewrite bind_ok; [|reflexivity].
    erewrite bind_ok; reflexivity. }
  fold ns. cbn [heap stdout].
  rewrite insert_app_r_alt, Nat.sub_diag by lia. cbn [insert list_insert].
  erewrite (from_argparse_run _ _ _ ns); cycle 1.
  - cbn [heap]. now apply list_lookup_middle.
  - reflexivity.
  - reflexivity.
  - cbn [heap stdout]. rewrite insert_app_r_alt, Nat.sub_diag by lia.
    reflexivity.
Qed.

Lemma invoke_result :
  Settings.invoke environ argv w
  = (World (heap w ++ [materialized ns ni;
                       instance_attributes
                         (List.filter
                            (fun i => existsb (String.eqb i.1) Settings.parameters)
                            (materialized ns ni))])
           (stdout w ++ if truthy vb then dump (materialized ns ni) else []),
     inr (S (length (heap w)))).
Proof.
  rewrite invoke_run, new_keywords. unfold ns. rewrite bind_registered.
  cbn [heap stdout]. rewrite <- app_assoc, length_app, Nat.add_1_r.
  reflexivity.
Qed.

End Invocation.

(** X5. In every run whose command line parses, a [Settings] instance is
    returned, and each of its eight attributes holds the resolved value of
    the option of the same name, which is also what the namespace still
    holds under that name. *)
Theorem invoke_stores_resolved_options (environ : string -> option string)
    (argv : list string) (supplied : dict) (w : world) :
  Argparse.scan (Settings.register_argparse_arguments []) argv [] = inr supplied ->
  exists w',
    Settings.invoke environ argv w = (w', inr (S (length (heap w))))
    /\ forall name d, In (name, d) stored_parameters ->
         is_Some (getattr w' (S (length (heap w))) name)
         /\ getattr w' (S (length (heap w))) name
            = dict_get name
                (Argparse.namespace environ (Settings.register_argparse_arguments [])
                   supplied)
         /\ getattr w' (S (length (heap w))) name
            = getattr w' (length (heap w)) name.
Proof.
  intros Hscan. eexists. split; [apply (invoke_result environ argv supplied w Hscan)|].
  intros name d Hin. unfold getattr. cbn [heap].
  rewrite (lookup_app_r (heap w) _ (S (length (heap w)))) by lia.
  rewrite (lookup_app_r (heap w) _ (length (heap w))) by lia.
  replace (S (length (heap w)) - length (heap w)) with 1 by lia.
  rewrite Nat.sub_diag.
  simpl in Hin.
  repeat (destruct Hin as [Heq|Hin];
          [injection Heq as <- <-; split; [eexists|split]; reflexivity|]).
  contradiction.
Qed.

Lemma invoke_stores_resolved_options_witness :
  exists w',
    Settings.invoke (fun n => if n =? "OKTA_USERNAME" then Some "jdoe" else None)
      ["-o"; "acme.okta.com"; "--non-interactive"] initial
    = (w', inr 1)
    /\ getattr w' 1 "username" = Some (VStr "jdoe")
    /\ getattr w' 1 "okta_org" = Some (VStr "acme.okta.com")
    /\ getattr w' 1 "sts_duration" = Some (VInt 3600).
Proof.
  destruct (invoke_stores_resolved_options
              (fun n => if n =? "OKTA_USERNAME" then Some "jdoe" else None)
              ["-o"; "acme.okta.com"; "--non-interactive"]
              [("okta_org", VStr "acme.okta.com"); ("non_interactive", VBool true)]
              initial eq_refl) as (w' & Hrun & Hattrs).
  exists w'. split; [exact Hrun|].
  split; [|split].
  - exact (eq_trans (proj1 (proj2 (Hattrs "username" VNone ltac:(simpl; tauto))))
                     eq_refl).
  - exact (eq_trans (proj1 (proj2 (Hattrs "okta_org" VNone ltac:(simpl; tauto))))
                     eq_refl).
  - exact (eq_trans (proj1 (proj2 (Hattrs "sts_duration" VNone ltac:(simpl; tauto))))
                     eq_refl).
Defined.

(** X9. In a run with [--verbose] the only output is the header followed
    by one line per setting, in the order [profile], [okta_org],
    [okta_aws_app_url], [aws_role_to_assume], [username], [password],
    [sts_duration], [config_file], [verbose], [interactive]: the role, which
    the instance drops, is listed, and [non_interactive] is not. *)
Theorem verbose_run_dump_layout (environ : string -> option string)
    (argv : list string) (supplied : dict) (w : world) :
  Argparse.scan (Settings.register_argparse_arguments []) argv [] = inr supplied ->
  truthy (default (VBool false) (dict_get "verbose" supplied)) = true ->
  exists settings : dict,
    stdout (Settings.invoke environ argv w).1 = (stdout w ++ dump settings)%list
    /\ heap (Settings.invoke environ argv w).1 !! length (heap w) = Some settings
    /\ keys settings
       = ["profile"; "okta_org"; "okta_aws_app_url"; "aws_role_to_assume";
          "username"; "password"; "sts_duration"; "config_file"; "verbose";
          "interactive"]
    /\ length (dump settings) = 11.
Proof.
  intros Hscan Hverbose.
  rewrite (invoke_result environ argv supplied w Hscan).
  cbn [fst heap stdout]. rewrite Hverbose.
  eexists. split; [reflexivity|].
  split; [now apply list_lookup_middle|].
  split; reflexivity.
Qed.

Lemma verbose_run_dump_layout_witness :
  stdout (Settings.invoke (fun _ => None) ["--verbose"; "-pw"; "hunter2"] initial).1
  = [(newline ++ "Using the following settings...")%string;
     "profile............: None"; "okta_org...........: None";
     "okta_aws_app_url...: None"; "aws_role_to_assume.: None";
     "username...........: None"; "password...........: <redacted>";
     "sts_duration.......: 3600"; "config_file........: ~/.pyokta_aws/config";
     "verbose............: True"; "interactive........: True"].
Proof.
  destruct (verbose_run_dump_layout (fun _ => None)
              ["--verbose"; "-pw"; "hunter2"]
              [("verbose", VBool true); ("password", VStr "hunter2")]
              initial eq_refl eq_refl) as (settings & Hout & Hns & _).
  rewrite Hout.
  assert (Hsettings : Some settings
                      = Some (materialized
                                (Argparse.namespace (fun _ => None)
                                   (Settings.register_argparse_arguments [])
                                   [("verbose", VBool true); ("password", VStr "hunter2")])
                                (VBool false))).
  { rewrite <- Hns. reflexivity. }
  injection Hsettings as ->. reflexivity.
Defined.

(** X8. An environment variable reaches the option it is bound to and no
    other: two environments that agree on every variable except the one
    bound to an option give namespaces that can differ only under that
    option's name.  In particular no environment variable changes
    [verbose] or [non_interactive]. *)
Theorem environment_variable_reaches_one_option
    (environ1 environ2 : string -> option string) (supplied : dict)
    (a : Argparse.action) (env : string) :
  In a (Settings.register_argparse_arguments []) ->
  env_bound a env ->
  same_environ_except env environ1 environ2 ->
  differ_only_at (Argparse.dest a)
    (Argparse.namespace environ1 (Settings.register_argparse_arguments []) supplied)
    (Argparse.namespace environ2 (Settings.register_argparse_arguments []) supplied).
Proof.
  intros Hin Henv Hsame. rewrite !namespace_registered.
  unfold env_bound in Henv. simpl in Hin.
  repeat (destruct Hin as [<-|Hin]); try contradiction; try discriminate Henv;
    injection Henv as <-; unfold differ_only_at, Argparse.dest_of; simpl;
    repeat (constructor; [split; [reflexivity|]; cbn [fst snd]; intros Hne|]);
    try constructor;
    try (exfalso; apply Hne; reflexivity);
    unfold Utils.EnvironmentDefault;
    repeat match goal with
           | |- context [environ1 ?n] => rewrite (Hsame n) by discriminate
           end;
    reflexivity.
Qed.

Lemma environment_variable_reaches_one_option_witness :
  let environ1 := fun n => if n =? "OKTA_PASSWORD" then Some "hunter2" else None in
  let environ2 := fun n : string => @None string in
  differ_only_at "password"
    (Argparse.namespace environ1 (Settings.register_argparse_arguments []) [])
    (Argparse.namespace environ2 (Settings.register_argparse_arguments []) []).
Proof.
  intros environ1 environ2.
  apply (environment_variable_reaches_one_option environ1 environ2 []
           (Argparse.Action ["-pw"; "--password"] "password"
              (Argparse.EnvironmentDefault "OKTA_PASSWORD") VNone)
           "OKTA_PASSWORD").
  - simpl. tauto.
  - reflexivity.
  - intros n Hn. unfold environ1, environ2.
    destruct (String.eqb_spec n "OKTA_PASSWORD"); [contradiction | reflexivity].
Defined.

(** X10. The dump of a parsed namespace is aligned: every key is shorter
    than the 19 columns of the format, so each line is the key, at least
    one dot, the separator starting at column 19, and the value shown. *)
Theorem dump_lines_are_aligned (environ : string -> option string)
    (supplied : dict) (ni : value) (x : string) (y : value) :
  In (x, y)
     (materialized
        (Argparse.namespace environ (Settings.register_argparse_arguments []) supplied)
        ni) ->
  (String.length x < 19)%nat
  /\ Settings.dump_line x y
     = x ++ replicate_char (19 - String.length x) "." ++ ": " ++ shown x y
  /\ String.length (x ++ replicate_char (19 - String.length x) ".") = 19.
Proof.
  rewrite namespace_registered. unfold materialized. simpl.
  intros Hin.
  repeat (destruct Hin as [Heq|Hin];
          [injection Heq as <- <-; split; [simpl; lia | split; reflexivity]|]).
  contradiction.
Qed.

Lemma dump_lines_are_aligned_witness :
  Settings.dump_line "aws_role_to_assume" (VStr "123/AWSAdmin/jdoe")
  = "aws_role_to_assume.: 123/AWSAdmin/jdoe".
Proof.
  destruct (dump_lines_are_aligned (fun _ => None)
              [("aws_role_to_assume", VStr "123/AWSAdmin/jdoe")] (VBool false)
              "aws_role_to_assume" (VStr "123/AWSAdmin/jdoe"))
    as (_ & Hline & _).
  - simpl. tauto.
  - rewrite Hline. reflexivity.
Defined.

(** X12. A value on the command line reaches the option it is given for
    and no other: supplying a value for one option changes the namespace
    under that option's name only. *)
Theorem command_line_value_reaches_one_option
    (environ : string -> option string) (supplied : dict)
    (a : Argparse.action) (v : value) :
  In a (Settings.register_argparse_arguments []) ->
  differ_only_at (Argparse.dest a)
    (Argparse.namespace environ (Settings.register_argparse_arguments []) supplied)
    (Argparse.namespace environ (Settings.register_argparse_arguments [])
       (dict_set (Argparse.dest a) v supplied))
  /\ dict_get (Argparse.dest a)
       (Argparse.namespace environ (Settings.register_argparse_arguments [])
          (dict_set (Argparse.dest a) v supplied))
     = Some v.
Proof.
  intros Hin. rewrite !namespace_registered. simpl in Hin.
  repeat (destruct Hin as [<-|Hin]); try contradiction;
    unfold differ_only_at, Argparse.dest_of; simpl;
    (split;
     [repeat (constructor; [split; [reflexivity|]; cbn [fst snd]; intros Hne|]);
      try constructor;
      try (exfalso; apply Hne; reflexivity);
      now rewrite dict_get_set_ne by discriminate
     |now rewrite dict_get_set_eq]).
Qed.

Lemma command_line_value_reaches_one_option_witness :
  dict_get "okta_org"
    (Argparse.namespace (fun _ => Some "from-environment")
       (Settings.register_argparse_arguments [])
       (dict_set "okta_org" (VStr "acme.okta.com") []))
  = Some (VStr "acme.okta.com").
Proof.
  apply (proj2 (command_line_value_reaches_one_option
                  (fun _ => Some "from-environment") []
                  (Argparse.Action ["-o"; "--okta-org"] "okta_org"
                     (Argparse.EnvironmentDefault "OKTA_ORG") VNone)
                  (VStr "acme.okta.com") ltac:(simpl; tauto))).
Defined.

(** X13. The instance depends on the eight stored keywords only: two
    constructions whose keywords differ under a single key that is not one
    of the stored parameters, [interactive] included, raise the same error
    or make equal instances. *)
Theorem instance_depends_on_stored_keywords (w1 w2 : world) (k : string)
    (kwargs1 kwargs2 : dict) :
  differ_only_at k kwargs1 kwargs2 ->
  ~ In k (map fst stored_parameters) ->
  match Settings.new [] kwargs1 w1, Settings.new [] kwargs2 w2 with
  | (w1', inr settings1), (w2', inr settings2) =>
      heap w1' !! settings1 = heap w2' !! settings2
      /\ is_Some (heap w1' !! settings1)
  | (_, inl e1), (_, inl e2) => e1 = e2
  | _, _ => False
  end.
Proof.
  intros Hdiff Hk.
  rewrite !new_keywords, !bind_arguments_keywords.
  pose proof (bind_keywords_agree "self" Settings.parameters [] _ _ _ Hdiff
                [] [] [] [] (fun _ _ => eq_refl)) as Hsame.
  destruct (Call.bind_keywords _ _ _ kwargs1 _ _) as [e1|[named1 extra1]],
           (Call.bind_keywords _ _ _ kwargs2 _ _) as [e2|[named2 extra2]];
    try contradiction; [exact Hsame|].
  cbn [heap]. rewrite !list_lookup_middle by reflexivity.
  assert (Hattrs : instance_attributes named1 = instance_attributes named2).
  { unfold instance_attributes, Call.argument.
    rewrite !Hsame by (intros Heq; subst k; apply Hk; simpl; tauto).
    reflexivity. }
  rewrite Hattrs. eauto.
Qed.

Lemma instance_depends_on_stored_keywords_witness :
  heap (Settings.new [] [("profile", VStr "acme"); ("interactive", VBool false)]
          initial).1 !! 0
  = heap (Settings.new [] [("profile", VStr "acme"); ("interactive", VBool true)]
            initial).1 !! 0.
Proof.
  assert (Hdiff : differ_only_at "interactive"
                    [("profile", VStr "acme"); ("interactive", VBool false)]
                    [("profile", VStr "acme"); ("interactive", VBool true)]).
  { repeat constructor; simpl; congruence. }
  pose proof (instance_depends_on_stored_keywords initial initial "interactive"
                _ _ Hdiff ltac:(simpl; intuition discriminate)) as H.
  exact (proj1 H).
Defined.

(** ** What the command line supplies *)

Section ScanValues.

(** Switches supply [True], options the word that follows their flag. *)
Let from_command_line (d : dict) : Prop :=
  forall k v, dict_get k d = Some v ->
    if (k =? "non_interactive") || (k =? "verbose")
    then v = VBool true
    else exists s, v = VStr s.

Lemma scan_cons (p : Argparse.parser) (flag : string) (rest : list string)
    (supplied : dict) :
  Argparse.scan p (flag :: rest) supplied
  = match Argparse.find_action p flag with
    | None => inl (SystemExit 2)
    | Some a =>
        match Argparse.action_of a, rest with
        | Argparse.store_true, _ =>
            Argparse.scan p rest (dict_set (Argparse.dest a) (VBool true) supplied)
        | Argparse.EnvironmentDefault _, word :: rest' =>
            Argparse.scan p rest' (dict_set (Argparse.dest a) (VStr word) supplied)
        | Argparse.EnvironmentDefault _, [] => inl (SystemExit 2)
        end
    end.
Proof. reflexivity. Qed.

Lemma from_command_line_set (k0 : string) (v0 : value) (d : dict) :
  from_command_line d ->
  (if (k0 =? "non_interactive") || (k0 =? "verbose")
   then v0 = VBool true else exists s, v0 = VStr s) ->
  from_command_line (dict_set k0 v0 d).
Proof.
  intros Hd Hv k v. destruct (String.eqb_spec k0 k) as [<-|Hne].
  - rewrite dict_get_set_eq. now intros [= <-].
  - rewrite dict_get_set_ne by assumption. apply Hd.
Qed.

Lemma scan_from_command_line (n : nat) :
  forall argv supplied0 supplied,
    length argv <= n ->
    Argparse.scan (Settings.register_argparse_arguments []) argv supplied0
    = inr supplied ->
    from_command_line supplied0 -> from_command_line supplied.
Proof.
  induction n as [|n IH]; intros [|flag rest] supplied0 supplied Hlen Hscan H0;
    try (injection Hscan as <-; exact H0); [simpl in Hlen; lia|].
  rewrite scan_cons in Hscan.
  destruct (Argparse.find_action _ flag) as [a|] eqn:Hfind; [|discriminate].
  apply find_some in Hfind as [Hin _]. simpl in Hlen. simpl in Hin.
  repeat (destruct Hin as [<-|Hin]); try contradiction;
    cbn [Argparse.action_of Argparse.dest] in Hscan;
    try (destruct rest as [|word rest']; [discriminate|]; simpl in Hlen);
    (eapply IH; [|exact Hscan|]; [lia|]);
    (apply from_command_line_set; [exact H0|]);
    unfold Argparse.dest_of; simpl; eauto.
Qed.

End ScanValues.

(** X11. The session duration is never converted to a number: the
    instance's [sts_duration] is the integer 3600 only when neither the
    command line nor [OKTA_STS_DURATION] gives one; a value from the
    environment or from the command line is stored as the text it was
    given as. *)
Theorem sts_duration_is_kept_as_text (environ : string -> option string)
    (argv : list string) (supplied : dict) (w : world) :
  Argparse.scan (Settings.register_argparse_arguments []) argv [] = inr supplied ->
  let duration :=
    getattr (Settings.invoke environ argv w).1 (S (length (heap w))) "sts_duration" in
  (dict_get "sts_duration" supplied = None ->
   environ "OKTA_STS_DURATION" = None -> duration = Some (VInt 3600))
  /\ (forall text, dict_get "sts_duration" supplied = None ->
        environ "OKTA_STS_DURATION" = Some text -> duration = Some (VStr text))
  /\ (forall v, dict_get "sts_duration" supplied = Some v ->
        duration = Some v /\ exists text, v = VStr text).
Proof.
  intros Hscan duration. subst duration.
  rewrite (invoke_result environ argv supplied w Hscan).
  unfold getattr. cbn [fst heap].
  rewrite (lookup_app_r (heap w) _ (S (length (heap w)))) by lia.
  replace (S (length (heap w)) - length (heap w)) with 1 by lia.
  change (let duration :=
            Some (Utils.EnvironmentDefault environ "OKTA_STS_DURATION" (VInt 3600)
                    (dict_get "sts_duration" supplied)) in
          (dict_get "sts_duration" supplied = None ->
           environ "OKTA_STS_DURATION" = None -> duration = Some (VInt 3600))
          /\ (forall text, dict_get "sts_duration" supplied = None ->
                environ "OKTA_STS_DURATION" = Some text ->
                duration = Some (VStr text))
          /\ (forall v, dict_get "sts_duration" supplied = Some v ->
                duration = Some v /\ exists text, v = VStr text)).
  cbv zeta. unfold Utils.EnvironmentDefault.
  split; [|split].
  - now intros -> ->.
  - now intros text -> ->.
  - intros v Hv. rewrite Hv. split; [reflexivity|].
    apply (scan_from_command_line (length argv) argv [] supplied
             (Nat.le_refl _) Hscan (fun k v H => ltac:(discriminate H))
             "sts_duration" v Hv).
Qed.

Lemma sts_duration_is_kept_as_text_witness :
  getattr (Settings.invoke (fun _ => None) ["-s"; "900"] initial).1 1 "sts_duration"
  = Some (VStr "900").
Proof.
  apply (proj2 (proj2 (sts_duration_is_kept_as_text (fun _ => None)
                         ["-s"; "900"] [("sts_duration", VStr "900")] initial
                         eq_refl)) (VStr "900") eq_refl).
Defined.
